(** * OpenAI / Azure chat completion connector

    A shallow embedding of
    [semantic_kernel/connectors/ai/open_ai/services/open_ai_chat_completion_base.py]
    and [azure_chat_completion.py].

    Python values are modelled as the code uses them: [int] as [Z], [float] as
    the kernel's binary64 floats, [str] as [string], [Optional] as [option],
    dictionaries as [gmap], lists as [list].  The remote call
    [openai.ChatCompletion.acreate] is a parameter of the development; every
    statement holds for every behaviour of it.  Raised exceptions are values
    of [Exception]; the calls that reach the transport and the usage details
    handed to the metrics hook are recorded in a [World]. *)

From Stdlib Require Import ZArith Floats.
From stdpp Require Import base option list strings gmap pretty.

Set Warnings "-register-all".
Open Scope Z_scope.

(** ** Exceptions *)

(** Modelled from the spec: [AIException.ErrorCodes] is declared in
    [ai_exception.py], outside these sources; these are the two codes the
    source names (the taxonomy of section 7). *)
Inductive ErrorCodes : Type :=
| InvalidRequest
| ServiceError.

(** The exceptions the code can end with.  [AIException] carries its error
    code, its message and the optional inner exception;  [TransportError]
    stands for the exception types of the [openai] package and of the network
    layer below it. *)
Inductive Exception : Type :=
| ValueError (msg : string)
| TypeError (msg : string)
| AttributeError (msg : string)
| IndexError (msg : string)
| KeyError (key : string)
| AIException (code : ErrorCodes) (msg : string) (inner : option Exception)
| TransportError (kind : string) (msg : string).

Inductive Result (A : Type) : Type :=
| Ok (a : A)
| Raise (ex : Exception).
Arguments Ok {A} a.
Arguments Raise {A} ex.

(** ** Data model *)

(** [ChatRequestSettings] and [CompleteRequestSettings]: the fields the source
    reads.  The two collections may be [None]. *)
Record ChatRequestSettings : Type := {
  temperature : float;
  top_p : float;
  presence_penalty : float;
  frequency_penalty : float;
  max_tokens : Z;
  number_of_responses : Z;
  token_selection_biases : option (gmap Z Z);
  stop_sequences : option (list string)
}.

Module Complete.
Record CompleteRequestSettings : Type := {
  temperature : float;
  top_p : float;
  presence_penalty : float;
  frequency_penalty : float;
  max_tokens : Z;
  number_of_responses : Z;
  token_selection_biases : option (gmap Z Z);
  stop_sequences : option (list string)
}.
End Complete.
Abbreviation CompleteRequestSettings := Complete.CompleteRequestSettings.

(** The fields of [OpenAIChatCompletionBase]. *)
Record OpenAIChatCompletionBase : Type := {
  model_id : string;
  api_key : string;
  api_type : string;
  org_id : option string;
  api_version : option string;
  endpoint : option string
}.

(** One entry of [formatted_messages]: [{"role": role, "content": message}]. *)
Record FormattedMessage : Type := {
  role : string;
  content : string
}.

(** The keyword arguments of [openai.ChatCompletion.acreate]. *)
Record Payload : Type := {
  model_args : gmap string string;
  p_api_key : string;
  p_api_type : string;
  p_api_base : option string;
  p_api_version : option string;
  p_organization : option string;
  p_messages : list FormattedMessage;
  p_temperature : float;
  p_top_p : float;
  p_n : Z;
  p_stream : bool;
  p_stop : option (list string);
  p_max_tokens : Z;
  p_presence_penalty : float;
  p_frequency_penalty : float;
  p_logit_bias : gmap Z Z
}.

(** The provider's usage accounting, [response.usage]. *)
Record Usage : Type := {
  prompt_tokens : Z;
  completion_tokens : Z;
  total_tokens : Z
}.

(** A candidate of a full response: [choice.message.content]. *)
Record Choice : Type := {
  message_content : string
}.

(** A candidate of a streamed chunk: [choice.delta] with its optional [role]
    and [content] keys, and [choice.index]. *)
Record Delta : Type := {
  delta_role : option string;
  delta_content : option string
}.

Record StreamChoice : Type := {
  delta : Delta;
  index : Z
}.

Record Chunk : Type := {
  chunk_choices : list StreamChoice
}.

(** What [acreate] hands back: a full response with its [choices], or (with
    [stream=True]) an asynchronous iterator that delivers [chunks] and then
    either ends or raises [failure]. *)
Inductive Body : Type :=
| Completion (choices : list Choice)
| ChunkStream (chunks : list Chunk) (failure : option Exception).

Record Response : Type := {
  usage : option Usage;
  body : Body
}.

Inductive Reply : Type :=
| Returns (response : Response)
| Raises (ex : Exception).

(** [Union[str, List[str]]]: the result of the completion operations and the
    element type of the streams. *)
Inductive Completions : Type :=
| Text (s : string)
| Texts (l : list string).

(** ** Effects *)

Record World : Type := {
  transport_calls : list Payload;
  captured_usage : list Usage
}.

Definition rbind {A B} (r : Result A) (k : A -> Result B) : Result B :=
  match r with
  | Ok a => k a
  | Raise ex => Raise ex
  end.

Notation "'let?' x := r 'in' k" := (rbind r (fun x => k))
  (at level 10, x pattern, r at level 100, k at level 200).

Definition M (A : Type) : Type := World -> Result A * World.

Definition ret {A} (a : A) : M A := fun w => (Ok a, w).

Definition raise {A} (ex : Exception) : M A := fun w => (Raise ex, w).

Definition bind {A B} (c : M A) (k : A -> M B) : M B :=
  fun w =>
    match c w with
    | (Ok a, w') => k a w'
    | (Raise ex, w') => (Raise ex, w')
    end.

Definition try_except {A} (c : M A) (handler : Exception -> M A) : M A :=
  fun w =>
    match c w with
    | (Ok a, w') => (Ok a, w')
    | (Raise ex, w') => handler ex w'
    end.

Definition lift {A} (r : Result A) : M A := fun w => (r, w).

Notation "'do' x <- c ; k" := (bind c (fun x => k))
  (at level 10, x pattern, c at level 100, k at level 200).

(** [self.capture_usage_details] applied to the fields of [response.usage]:
    the metrics collaborator. *)
Definition capture_usage_details (u : Usage) : M unit :=
  fun w =>
    (Ok tt, {| transport_calls := transport_calls w;
               captured_usage := captured_usage w ++ [u] |}).

(** ** Python list operations *)

(** [[x] * n]. *)
Definition py_replicate {A} (x : A) (n : Z) : list A := replicate (Z.to_nat n) x.

(** [l[i] = v] on a list: negative positions count from the end, a position
    outside [-len(l) .. len(l) - 1] raises [IndexError]. *)
Definition py_setitem {A} (l : list A) (i : Z) (v : A) : Result (list A) :=
  let len := Z.of_nat (length l) in
  if bool_decide (0 <= i < len) then Ok (<[Z.to_nat i := v]> l)
  else if bool_decide (- len <= i < 0) then Ok (<[Z.to_nat (len + i) := v]> l)
  else Raise (IndexError "list assignment index out of range").

(** [l[0]]. *)
Definition py_first {A} (l : list A) : Result A :=
  match l with
  | x :: _ => Ok x
  | [] => Raise (IndexError "list index out of range")
  end.

(** ** The chat request *)

Section Service.

(** [openai.ChatCompletion.acreate]. *)
Variable acreate : Payload -> Reply.

Definition openai_ChatCompletion_acreate (p : Payload) : M Response :=
  fun w =>
    let w' := {| transport_calls := transport_calls w ++ [p];
                 captured_usage := captured_usage w |} in
    match acreate p with
    | Returns r => (Ok r, w')
    | Raises ex => (Raise ex, w')
    end.

Definition build_model_args (self : OpenAIChatCompletionBase) : gmap string string :=
  if bool_decide (api_type self ∈ ["azure"; "azure_ad"])
  then <["engine" := model_id self]> ∅
  else <["model" := model_id self]> ∅.

Definition format_messages (messages : list (string * string)) : list FormattedMessage :=
  (fun m => {| role := m.1; content := m.2 |}) <$> messages.

Definition build_payload (self : OpenAIChatCompletionBase)
    (messages : list (string * string)) (rs : ChatRequestSettings)
    (stream : bool) : Payload :=
  {| model_args := build_model_args self;
     p_api_key := api_key self;
     p_api_type := api_type self;
     p_api_base := endpoint self;
     p_api_version := api_version self;
     p_organization := org_id self;
     p_messages := format_messages messages;
     p_temperature := temperature rs;
     p_top_p := top_p rs;
     p_n := number_of_responses rs;
     p_stream := stream;
     p_stop :=
       match stop_sequences rs with
       | Some l => if bool_decide (0 < length l)%nat then Some l else None
       | None => None
       end;
     p_max_tokens := max_tokens rs;
     p_presence_penalty := presence_penalty rs;
     p_frequency_penalty := frequency_penalty rs;
     p_logit_bias :=
       match token_selection_biases rs with
       | Some b => if bool_decide (0 < size b)%nat then b else ∅
       | None => ∅
       end |}.

(** ["usage" in response], with [response.usage] when the key is there.  A
    full response is a mapping and has the key or not; the asynchronous
    generator of a streamed reply supports no membership test, and the test
    raises [TypeError]. *)
Definition usage_in (response : Response) : Result (option Usage) :=
  match body response with
  | Completion _ => Ok (usage response)
  | ChunkStream _ _ =>
    Raise (TypeError "argument of type 'async_generator' is not iterable")
  end.

Definition _send_chat_request (self : OpenAIChatCompletionBase)
    (messages : list (string * string))
    (request_settings : option ChatRequestSettings)
    (stream : bool) : M Response :=
  match request_settings with
  | None => raise (ValueError "The request settings cannot be `None`")
  | Some rs =>
    if bool_decide (max_tokens rs < 1) then
      raise (AIException InvalidRequest
               ("The max tokens must be greater than 0, but was "
                  +:+ pretty (max_tokens rs)) None)
    else if bool_decide (length messages <= 0)%nat then
      raise (AIException InvalidRequest
               "To complete a chat you need at least one message" None)
    else
      match last messages with
      | None => raise (IndexError "list index out of range")
      | Some m =>
        if bool_decide (m.1 ≠ "user") then
          raise (AIException InvalidRequest
                   "The last message must be from the user" None)
        else
          do response <-
            try_except
              (openai_ChatCompletion_acreate (build_payload self messages rs stream))
              (fun ex =>
                 raise (AIException ServiceError
                          "OpenAI service failed to complete the chat" (Some ex)));
          do in_response <- lift (usage_in response);
          do _ <-
            match in_response with
            | Some u => capture_usage_details u
            | None => ret tt
            end;
          ret response
      end
  end.

(** [response.choices]: a full response has them, the asynchronous iterator
    of a streamed reply does not. *)
Definition response_choices (response : Response) : Result (list Choice) :=
  match body response with
  | Completion choices => Ok choices
  | ChunkStream _ _ =>
    Raise (AttributeError "'async_generator' object has no attribute 'choices'")
  end.

Definition complete_chat_async (self : OpenAIChatCompletionBase)
    (messages : list (string * string))
    (request_settings : option ChatRequestSettings) : M Completions :=
  do response <- _send_chat_request self messages request_settings false;
  do choices <- lift (response_choices response);
  if bool_decide (length choices = 1%nat) then
    do c <- lift (py_first choices);
    ret (Text (message_content c))
  else
    ret (Texts (message_content <$> choices)).

(** Modelled from the spec: [ChatRequestSettings.from_completion_config] is
    defined in [chat_request_settings.py], outside these sources.  It converts
    a text-completion settings object into chat-request settings with
    temperature, top_p, the two penalties, max_tokens, number_of_responses,
    token_selection_biases and stop_sequences carried over field for field.
    It reads the fields of its argument, so on [None] the first read raises
    [AttributeError], as the conversion written out in
    [complete_stream_async] does. *)
Definition from_completion_config (request_settings : option CompleteRequestSettings)
    : Result ChatRequestSettings :=
  match request_settings with
  | None => Raise (AttributeError "'NoneType' object has no attribute 'temperature'")
  | Some rs =>
    Ok {| temperature := Complete.temperature rs;
          top_p := Complete.top_p rs;
          presence_penalty := Complete.presence_penalty rs;
          frequency_penalty := Complete.frequency_penalty rs;
          max_tokens := Complete.max_tokens rs;
          number_of_responses := Complete.number_of_responses rs;
          token_selection_biases := Complete.token_selection_biases rs;
          stop_sequences := Complete.stop_sequences rs |}
  end.

Definition complete_async (self : OpenAIChatCompletionBase)
    (prompt : string)
    (request_settings : option CompleteRequestSettings) : M Completions :=
  let prompt_to_message := [("user", prompt)] in
  do chat_settings <- lift (from_completion_config request_settings);
  do response <- _send_chat_request self prompt_to_message (Some chat_settings) false;
  do choices <- lift (response_choices response);
  if bool_decide (length choices = 1%nat) then
    do c <- lift (py_first choices);
    ret (Text (message_content c))
  else
    ret (Texts (message_content <$> choices)).

(** ** Streaming *)

(** What a consumer that pulls an asynchronous generator to its end observes:
    the elements yielded, in order, and how the generator stopped ([None]: it
    was exhausted; [Some ex]: the pull after the last element raised [ex]).  A
    consumer that stops pulling earlier sees a prefix of [frames]. *)
Record Trace : Type := {
  frames : list Completions;
  ending : option Exception
}.

(** [async for chunk in response: loop_body], where each round of the body
    yields one element or raises. *)
Fixpoint async_for (loop_body : Chunk -> Result Completions)
    (chunks : list Chunk) (failure : option Exception) : Trace :=
  match chunks with
  | [] => {| frames := []; ending := failure |}
  | chunk :: rest =>
    match loop_body chunk with
    | Raise ex => {| frames := []; ending := Some ex |}
    | Ok frame =>
      let t := async_for loop_body rest failure in
      {| frames := frame :: frames t; ending := ending t |}
    end
  end.

(** Iterating the reply: a streamed reply delivers its chunks, a full
    response is no asynchronous iterable. *)
Definition iterate (loop_body : Chunk -> Result Completions) (response : Response)
    : Trace :=
  match body response with
  | ChunkStream chunks failure => async_for loop_body chunks failure
  | Completion _ =>
    {| frames := [];
       ending := Some (TypeError
         "'async for' requires an object with __aiter__ method, got OpenAIObject") |}
  end.

Definition _parse_choices (chunk : Chunk) : Result (string * Z) :=
  let message := "" in
  let? choice0 := py_first (chunk_choices chunk) in
  let message :=
    match delta_role (delta choice0) with
    | Some r => message +:+ (r +:+ ": ")
    | None => message
    end in
  let message :=
    match delta_content (delta choice0) with
    | Some c => message +:+ c
    | None => message
    end in
  Ok (message, index choice0).

(** The body of the two [async for] loops: [number_of_responses] is the
    attribute read of [request_settings.number_of_responses]. *)
Definition stream_body (number_of_responses : Result Z) (chunk : Chunk)
    : Result Completions :=
  let? (text, index) := _parse_choices chunk in
  let? n := number_of_responses in
  if bool_decide (n > 1) then
    let completions := py_replicate "" n in
    let? completions := py_setitem completions index text in
    Ok (Texts completions)
  else
    Ok (Text text).

Definition complete_chat_stream_async (self : OpenAIChatCompletionBase)
    (messages : list (string * string))
    (request_settings : option ChatRequestSettings) : World -> Trace * World :=
  fun w =>
    match _send_chat_request self messages request_settings true w with
    | (Raise ex, w') => ({| frames := []; ending := Some ex |}, w')
    | (Ok response, w') =>
      let n :=
        match request_settings with
        | Some rs => Ok (number_of_responses rs)
        | None =>
          Raise (AttributeError "'NoneType' object has no attribute 'number_of_responses'")
        end in
      (iterate (stream_body n) response, w')
    end.

Definition complete_stream_async (self : OpenAIChatCompletionBase)
    (prompt : string)
    (request_settings : option CompleteRequestSettings) : World -> Trace * World :=
  fun w =>
    let prompt_to_message := [("user", prompt)] in
    match request_settings with
    | None =>
      ({| frames := [];
          ending := Some (AttributeError
            "'NoneType' object has no attribute 'temperature'") |}, w)
    | Some rs =>
      let chat_settings :=
        {| temperature := Complete.temperature rs;
           top_p := Complete.top_p rs;
           presence_penalty := Complete.presence_penalty rs;
           frequency_penalty := Complete.frequency_penalty rs;
           max_tokens := Complete.max_tokens rs;
           number_of_responses := Complete.number_of_responses rs;
           token_selection_biases := Complete.token_selection_biases rs;
           stop_sequences := Complete.stop_sequences rs |} in
      match _send_chat_request self prompt_to_message (Some chat_settings) true w with
      | (Raise ex, w') => ({| frames := []; ending := Some ex |}, w')
      | (Ok response, w') =>
        (iterate (stream_body (Ok (Complete.number_of_responses rs))) response, w')
      end
    end.

End Service.

(** ** The Azure binding *)

Module Azure.

(** The values a configuration dictionary holds: strings, the boolean that
    [from_dict] stores under ["ad_auth"], and a logger object. *)
Inductive PyValue : Type :=
| PyStr (s : string)
| PyBool (b : bool)
| PyLogger (name : string).

#[export] Instance PyValue_eq_dec : EqDecision PyValue.
Proof. solve_decision. Defined.

(** The fields of an [AzureChatCompletion]. *)
Record AzureChatCompletion : Type := {
  deployment_name : PyValue;
  endpoint : PyValue;
  api_key : PyValue;
  api_version : option PyValue;
  ad_auth : PyValue;
  log : option PyValue
}.

(** The truth value of a dictionary value, and of an optional one ([None] is
    false). *)
Definition truthy (v : PyValue) : bool :=
  match v with
  | PyStr s => negb (bool_decide (s = ""))
  | PyBool b => b
  | PyLogger _ => true
  end.

Definition truthy_opt (v : option PyValue) : bool :=
  match v with
  | Some v => truthy v
  | None => false
  end.

(** [a or b]: [a] when it is true, [b] otherwise. *)
Definition py_or (a b : option PyValue) : option PyValue :=
  if truthy_opt a then a else b.

(** Modelled from the spec: [BaseAzureConfig.__init__] is defined in
    [base_config_azure.py], outside these sources; construction is field
    storage, with no other side effect.  The [model_type] it is given is the
    same constant for every object and is not recorded. *)
Definition BaseAzureConfig__init__ (deployment_name endpoint api_key : PyValue)
    (api_version : option PyValue) (log : option PyValue) (ad_auth : PyValue)
    : AzureChatCompletion :=
  {| deployment_name := deployment_name;
     endpoint := endpoint;
     api_key := api_key;
     api_version := api_version;
     ad_auth := ad_auth;
     log := log |}.

(** [AzureChatCompletion.__init__]: a [logger], when given, is sent the
    deprecation warning, and the base class gets [log or logger].  The first
    component lists the warnings sent to [logger]. *)
Definition __init__ (deployment_name endpoint api_key : PyValue)
    (api_version : option PyValue) (ad_auth : PyValue)
    (log logger : option PyValue) : list string * AzureChatCompletion :=
  let warnings :=
    if truthy_opt logger
    then ["The 'logger' argument is deprecated, use 'log' instead."]
    else [] in
  (warnings,
   BaseAzureConfig__init__ deployment_name endpoint api_key api_version
     (py_or log logger) ad_auth).

(** [d[key]]. *)
Definition py_getitem (d : gmap string PyValue) (key : string) : Result PyValue :=
  match d !! key with
  | Some v => Ok v
  | None => Raise (KeyError key)
  end.

(** [from_dict] works on the dictionary object of its caller: the second
    component is that dictionary when the call is over. *)
Definition from_dict (settings : gmap string PyValue)
    : Result AzureChatCompletion * gmap string PyValue :=
  let settings :=
    match settings !! "api_type" with
    | Some api_type =>
      let settings :=
        <["ad_auth" := PyBool (bool_decide (api_type = PyStr "azure_ad"))]> settings in
      delete "api_type" settings
    | None => settings
    end in
  (let? deployment_name := py_getitem settings "deployment_name" in
   let? endpoint := py_getitem settings "endpoint" in
   let? api_key := py_getitem settings "api_key" in
   Ok (__init__ deployment_name endpoint api_key
         (settings !! "api_version")
         (default (PyBool false) (settings !! "ad_auth"))
         (settings !! "log") None).2,
   settings).

End Azure.

(** ** Observers and specification-side definitions *)

(** The error code of an [AIException]; other exception types have none. *)
Definition error_code (ex : Exception) : option ErrorCodes :=
  match ex with
  | AIException code _ _ => Some code
  | _ => None
  end.



(** The fragment of a chunk as the specification words it: the role, when
    present, followed by [": "], then the content, when present. *)
Definition spec_fragment (d : Delta) : string :=
  match delta_role d with Some r => r +:+ ": " | None => "" end
  +:+ match delta_content d with Some c => c | None => "" end.

(** The frame of a chunk as the specification words it: a new array of [n]
    empty strings with the fragment written at the reported index. *)
Definition spec_frame (n : Z) (choice : StreamChoice) : Completions :=
  Texts (<[Z.to_nat (index choice) := spec_fragment (delta choice)]>
           (replicate (Z.to_nat n) "")).

(** The first choice of every chunk of a streamed reply. *)
Definition first_choices (chunks : list Chunk) : list (option StreamChoice) :=
  (fun chunk => head (chunk_choices chunk)) <$> chunks.

(** The world after one more call to the transport. *)
Definition called (p : Payload) (w : World) : World :=
  {| transport_calls := transport_calls w ++ [p];
     captured_usage := captured_usage w |}.

(** The world after the usage hook has been given the reply's usage, if any. *)
Definition recorded (u : option Usage) (w : World) : World :=
  match u with
  | Some u => {| transport_calls := transport_calls w;
                 captured_usage := captured_usage w ++ [u] |}
  | None => w
  end.

(** ** Sample values *)

Module Sample.

Definition open_ai : OpenAIChatCompletionBase :=
  {| model_id := "gpt-3.5-turbo"; api_key := "sk-0"; api_type := "open_ai";
     org_id := None; api_version := None; endpoint := None |}.

Definition azure : OpenAIChatCompletionBase :=
  {| model_id := "chat-deployment"; api_key := "key-0"; api_type := "azure";
     org_id := None; api_version := Some "2023-03-15-preview";
     endpoint := Some "https://example.openai.azure.com" |}.

Definition chat_settings (n : Z) : ChatRequestSettings :=
  {| temperature := 0.5; top_p := 1; presence_penalty := 0;
     frequency_penalty := 0; max_tokens := 256; number_of_responses := n;
     token_selection_biases := Some ∅; stop_sequences := Some [] |}.

(** Settings that ask for no tokens at all. *)
Definition starved : ChatRequestSettings :=
  {| temperature := 0.5; top_p := 1; presence_penalty := 0;
     frequency_penalty := 0; max_tokens := 0; number_of_responses := 1;
     token_selection_biases := None; stop_sequences := None |}.

Definition starved_text : CompleteRequestSettings :=
  {| Complete.temperature := 0.5; Complete.top_p := 1;
     Complete.presence_penalty := 0; Complete.frequency_penalty := 0;
     Complete.max_tokens := -3; Complete.number_of_responses := 1;
     Complete.token_selection_biases := None;
     Complete.stop_sequences := None |}.

Definition text_settings (n : Z) : CompleteRequestSettings :=
  {| Complete.temperature := 0.5; Complete.top_p := 1;
     Complete.presence_penalty := 0; Complete.frequency_penalty := 0;
     Complete.max_tokens := 256; Complete.number_of_responses := n;
     Complete.token_selection_biases := Some ∅;
     Complete.stop_sequences := Some [] |}.

Definition conversation : list (string * string) :=
  [("system", "You are terse."); ("user", "Hello")].

Definition world0 : World := {| transport_calls := []; captured_usage := [] |}.

Definition chunk (r c : option string) (i : Z) : Chunk :=
  {| chunk_choices := [{| delta := {| delta_role := r; delta_content := c |};
                          index := i |}] |}.

Definition timeout : Exception := TransportError "Timeout" "Request timed out".

(** Transports: one that answers every call with the same reply. *)
Definition answers (r : Reply) : Payload -> Reply := fun _ => r.

Definition full_response (contents : list string) : Response :=
  {| usage := Some {| prompt_tokens := 9; completion_tokens := 3;
                      total_tokens := 12 |};
     body := Completion ((fun s => {| message_content := s |}) <$> contents) |}.

Definition full (contents : list string) : Reply :=
  Returns (full_response contents).

Definition streamed_response (chunks : list Chunk) (failure : option Exception)
    : Response :=
  {| usage := None; body := ChunkStream chunks failure |}.

Definition streamed (chunks : list Chunk) (failure : option Exception) : Reply :=
  Returns (streamed_response chunks failure).

Definition legacy_config : gmap string Azure.PyValue :=
  {[ "deployment_name" := Azure.PyStr "chat-deployment";
     "endpoint" := Azure.PyStr "https://example.openai.azure.com";
     "api_key" := Azure.PyStr "key-0";
     "api_type" := Azure.PyStr "azure_ad" ]}.

End Sample.

(** * Properties *)

(** ** Python list operations *)

Lemma py_replicate_length {A} (x : A) (n : Z) :
  length (py_replicate x n) = Z.to_nat n.
Proof. unfold py_replicate. apply length_replicate. Qed.

Lemma py_setitem_in_range {A} (l : list A) (i : Z) (v : A) :
  0 <= i < Z.of_nat (length l) ->
  py_setitem l i v = Ok (<[Z.to_nat i := v]> l).
Proof.
  intros Hi. unfold py_setitem.
  rewrite bool_decide_eq_true_2 by exact Hi. reflexivity.
Qed.

Lemma py_setitem_above {A} (l : list A) (i : Z) (v : A) :
  Z.of_nat (length l) <= i ->
  py_setitem l i v = Raise (IndexError "list assignment index out of range").
Proof.
  intros Hi. unfold py_setitem.
  rewrite bool_decide_eq_false_2 by lia.
  rewrite bool_decide_eq_false_2 by lia. reflexivity.
Qed.

Lemma py_setitem_ok_iff {A} (l : list A) (i : Z) (v : A) :
  (exists l', py_setitem l i v = Ok l') <->
  - Z.of_nat (length l) <= i < Z.of_nat (length l).
Proof.
  unfold py_setitem. split.
  - intros [l' H]. repeat case_bool_decide; try lia. discriminate.
  - intros Hi. repeat case_bool_decide; eauto. lia.
Qed.

(** ** The request: what [_send_chat_request] does *)

Section Request.

Variable acreate : Payload -> Reply.

Lemma send_without_settings self messages stream w :
  _send_chat_request acreate self messages None stream w
  = (Raise (ValueError "The request settings cannot be `None`"), w).
Proof. reflexivity. Qed.

(** A request that fails one of the three checks ends with an
    [InvalidRequest] exception and leaves the world as it was. *)
Lemma send_rejected self messages rs stream w :
  max_tokens rs < 1 \/ messages = [] \/
    (exists m, last messages = Some m /\ m.1 <> "user") ->
  exists msg,
    _send_chat_request acreate self messages (Some rs) stream w
    = (Raise (AIException InvalidRequest msg None), w).
Proof.
  intros H. unfold _send_chat_request.
  case_bool_decide as Hmax; [eexists; reflexivity|].
  case_bool_decide as Hlen; [eexists; reflexivity|].
  destruct H as [H | [H | (m & Hm & Hrole)]].
  - lia.
  - subst messages. simpl in Hlen. lia.
  - rewrite Hm. rewrite bool_decide_eq_true_2 by exact Hrole.
    eexists; reflexivity.
Qed.

(** A request that passes the checks calls the transport once, with the
    payload built from its arguments.  A full response is handed back after
    its usage was recorded; a streamed reply fails the membership test; a
    raised exception comes back inside a [ServiceError]. *)
Lemma send_accepted self messages rs stream w m :
  1 <= max_tokens rs ->
  last messages = Some m ->
  m.1 = "user" ->
  _send_chat_request acreate self messages (Some rs) stream w
  = match acreate (build_payload self messages rs stream) with
    | Returns response =>
      match body response with
      | Completion _ =>
        (Ok response,
         recorded (usage response)
           (called (build_payload self messages rs stream) w))
      | ChunkStream _ _ =>
        (Raise (TypeError "argument of type 'async_generator' is not iterable"),
         called (build_payload self messages rs stream) w)
      end
    | Raises ex =>
      (Raise (AIException ServiceError
                "OpenAI service failed to complete the chat" (Some ex)),
       called (build_payload self messages rs stream) w)
    end.
Proof.
  intros Hmax Hlast Hrole. unfold _send_chat_request.
  rewrite bool_decide_eq_false_2 by lia.
  rewrite bool_decide_eq_false_2
    by (destruct messages; [discriminate | simpl; lia]).
  rewrite Hlast.
  rewrite bool_decide_eq_false_2 by (intros Hne; apply Hne; exact Hrole).
  unfold bind, try_except, openai_ChatCompletion_acreate, lift, usage_in,
    called, recorded.
  destruct (acreate _) as [response | ex]; [|reflexivity].
  destruct (body response); [|reflexivity].
  destruct (usage response); reflexivity.
Qed.

(** The request never returns without settings, and a returned response is
    the transport's reply to the payload built from the arguments, a full
    response. *)
Lemma send_returns_inv self messages request_settings stream w response w' :
  _send_chat_request acreate self messages request_settings stream w
    = (Ok response, w') ->
  exists rs,
    request_settings = Some rs /\
    acreate (build_payload self messages rs stream) = Returns response /\
    w' = recorded (usage response) (called (build_payload self messages rs stream) w).
Proof.
  destruct request_settings as [rs|]; [|discriminate].
  unfold _send_chat_request.
  case_bool_decide as Hmax; [discriminate|].
  case_bool_decide as Hlen; [discriminate|].
  destruct (last messages) as [m|] eqn:Hlast; [|discriminate].
  case_bool_decide as Hrole; [discriminate|].
  unfold bind, try_except, openai_ChatCompletion_acreate, lift, usage_in,
    called, recorded.
  destruct (acreate _) as [r | ex] eqn:Hr; [|discriminate].
  destruct (body r); [|discriminate].
  destruct (usage r) eqn:Hu; unfold capture_usage_details, ret; simpl;
    intros [= <- <-]; exists rs; rewrite Hu; auto.
Qed.

(** A returned response is never the asynchronous generator of a streamed
    reply. *)
Lemma send_returns_full self messages request_settings stream w response w' :
  _send_chat_request acreate self messages request_settings stream w
    = (Ok response, w') ->
  exists choices, body response = Completion choices.
Proof.
  destruct request_settings as [rs|]; [|discriminate].
  unfold _send_chat_request.
  case_bool_decide as Hmax; [discriminate|].
  case_bool_decide as Hlen; [discriminate|].
  destruct (last messages) as [m|] eqn:Hlast; [|discriminate].
  case_bool_decide as Hrole; [discriminate|].
  unfold bind, try_except, openai_ChatCompletion_acreate, lift, usage_in.
  destruct (acreate _) as [r | ex] eqn:Hr; [|discriminate].
  destruct (body r) as [choices|] eqn:Hbody; [|discriminate].
  destruct (usage r); unfold capture_usage_details, ret; simpl;
    intros [= <- _]; eauto.
Qed.

End Request.

(** ** The completion operations *)

Section Completion.

Variable acreate : Payload -> Reply.

Lemma from_completion_config_some (rs : CompleteRequestSettings) :
  exists cs,
    from_completion_config (Some rs) = Ok cs /\
    max_tokens cs = Complete.max_tokens rs /\
    number_of_responses cs = Complete.number_of_responses rs.
Proof. eexists; split; [reflexivity|]. split; reflexivity. Qed.

(** C2 (as amended): without settings, [complete_chat_async] ends with the
    [ValueError] of the first check of [_send_chat_request], whatever the
    messages are; that exception is no [AIException] and carries no
    [InvalidRequest] code; the world, with its list of transport calls, is as
    before. *)
Theorem absent_settings_fail_before_transport
    (self : OpenAIChatCompletionBase) (messages : list (string * string))
    (w : World) :
  complete_chat_async acreate self messages None w
    = (Raise (ValueError "The request settings cannot be `None`"), w)
  /\ error_code (ValueError "The request settings cannot be `None`") = None
  /\ transport_calls (complete_chat_async acreate self messages None w).2
     = transport_calls w.
Proof. split; [reflexivity|]. split; reflexivity. Qed.

(** C4: a chat completion whose settings have [max_tokens < 1], or whose
    message list is empty, or whose last message is not from the user, and a
    text completion whose settings have [max_tokens < 1], end with an
    [AIException] of code [InvalidRequest]; the world is as before, so no
    call reached the transport. *)
Theorem invalid_request_before_transport
    (self : OpenAIChatCompletionBase) (w : World) :
  (forall (messages : list (string * string)) (rs : ChatRequestSettings),
     max_tokens rs < 1 \/ messages = [] \/
       (exists m, last messages = Some m /\ m.1 <> "user") ->
     exists msg,
       complete_chat_async acreate self messages (Some rs) w
       = (Raise (AIException InvalidRequest msg None), w))
  /\
  (forall (prompt : string) (rs : CompleteRequestSettings),
     Complete.max_tokens rs < 1 ->
     exists msg,
       complete_async acreate self prompt (Some rs) w
       = (Raise (AIException InvalidRequest msg None), w)).
Proof.
  split.
  - intros messages rs H.
    destruct (send_rejected acreate self messages rs false w H) as [msg Hmsg].
    exists msg. unfold complete_chat_async, bind. rewrite Hmsg. reflexivity.
  - intros prompt rs H.
    destruct (from_completion_config_some rs) as (cs & Hcs & Hmax & _).
    destruct (send_rejected acreate self [("user", prompt)] cs false w) as [msg Hmsg].
    { left. rewrite Hmax. exact H. }
    exists msg. unfold complete_async, bind, lift. rewrite Hcs, Hmsg. reflexivity.
Qed.

(** C6: when the request returned a full response, both completion operations
    return the content of the only candidate as a plain string if the
    response has exactly one candidate, and otherwise the list of the
    candidates' contents in the order of the response. *)
Theorem single_choice_is_unwrapped
    (self : OpenAIChatCompletionBase) (w w' : World)
    (response : Response) (choices : list Choice) :
  body response = Completion choices ->
  (forall (messages : list (string * string))
          (request_settings : option ChatRequestSettings),
     _send_chat_request acreate self messages request_settings false w
       = (Ok response, w') ->
     complete_chat_async acreate self messages request_settings w
     = (Ok match choices with
           | [c] => Text (message_content c)
           | _ => Texts (message_content <$> choices)
           end, w'))
  /\
  (forall (prompt : string) (request_settings : option CompleteRequestSettings)
          (chat_settings : ChatRequestSettings),
     from_completion_config request_settings = Ok chat_settings ->
     _send_chat_request acreate self [("user", prompt)] (Some chat_settings) false w
       = (Ok response, w') ->
     complete_async acreate self prompt request_settings w
     = (Ok match choices with
           | [c] => Text (message_content c)
           | _ => Texts (message_content <$> choices)
           end, w')).
Proof.
  intros Hbody.
  assert (Htail :
    (do choices <- lift (response_choices response);
     if bool_decide (length choices = 1%nat) then
       do c <- lift (py_first choices); ret (Text (message_content c))
     else ret (Texts (message_content <$> choices))) w'
    = (Ok match choices with
          | [c] => Text (message_content c)
          | _ => Texts (message_content <$> choices)
          end, w')).
  { unfold bind, lift, response_choices. rewrite Hbody.
    destruct choices as [|c [|c' rest]]; reflexivity. }
  split.
  - intros messages request_settings Hsend.
    unfold complete_chat_async, bind at 1. rewrite Hsend. exact Htail.
  - intros prompt request_settings chat_settings Hconv Hsend.
    unfold complete_async. unfold bind at 1, lift at 1. rewrite Hconv.
    unfold bind at 1. rewrite Hsend. exact Htail.
Qed.

End Completion.

(** ** Streams: the loop *)

Lemma async_for_all_ok loop_body chunks failure fs :
  Forall2 (fun chunk frame => loop_body chunk = Ok frame) chunks fs ->
  async_for loop_body chunks failure = {| frames := fs; ending := failure |}.
Proof.
  induction 1 as [|chunk frame chunks fs Hhead _ IH]; simpl.
  - reflexivity.
  - rewrite Hhead, IH. reflexivity.
Qed.

Lemma async_for_stops loop_body before chunk after failure fs ex :
  Forall2 (fun chunk frame => loop_body chunk = Ok frame) before fs ->
  loop_body chunk = Raise ex ->
  async_for loop_body (before ++ chunk :: after) failure
  = {| frames := fs; ending := Some ex |}.
Proof.
  intros Hbefore Hchunk.
  induction Hbefore as [|c frame before fs Hhead _ IH]; simpl.
  - rewrite Hchunk. reflexivity.
  - rewrite Hhead, IH. reflexivity.
Qed.

(** Every element a stream yields is the loop body's frame for the chunk at
    the same position. *)
Lemma async_for_frames loop_body chunks failure k frame :
  frames (async_for loop_body chunks failure) !! k = Some frame ->
  exists chunk, chunks !! k = Some chunk /\ loop_body chunk = Ok frame.
Proof.
  revert k. induction chunks as [|c chunks IH]; intros k; simpl.
  - intros H. discriminate.
  - destruct (loop_body c) as [f|ex] eqn:Hc; simpl; [|intros H; discriminate].
    destruct k as [|k]; simpl.
    + intros [= <-]. eauto.
    + intros H. apply IH in H. exact H.
Qed.

Lemma append_empty_r (s : string) : s +:+ "" = s.
Proof.
  induction s as [|a s IH]; [reflexivity|].
  change (String a s +:+ "") with (String a (s +:+ "")). rewrite IH. reflexivity.
Qed.

(** The decoded unit of a chunk is the specification's fragment of its first
    choice, with that choice's index. *)
Lemma parse_choices_first chunk choice :
  head (chunk_choices chunk) = Some choice ->
  _parse_choices chunk = Ok (spec_fragment (delta choice), index choice).
Proof.
  unfold _parse_choices, spec_fragment.
  destruct (chunk_choices chunk) as [|c rest]; simpl; [discriminate|].
  intros [= ->].
  destruct (delta_role (delta choice)) as [r|], (delta_content (delta choice));
    try reflexivity.
  rewrite append_empty_r. reflexivity.
Qed.

Lemma parse_choices_empty chunk :
  head (chunk_choices chunk) = None ->
  _parse_choices chunk = Raise (IndexError "list index out of range").
Proof.
  unfold _parse_choices.
  destruct (chunk_choices chunk); simpl; [reflexivity | discriminate].
Qed.

Section Streams.

Variable acreate : Payload -> Reply.



End Streams.

(** ** The payload and the failures of the transport *)

Lemma transport_calls_recorded u p w :
  transport_calls (recorded u (called p w)) = transport_calls w ++ [p].
Proof. destruct u; reflexivity. Qed.

Section Transport.

Variable acreate : Payload -> Reply.

(** Unwrapping the choices does not touch the world. *)
Lemma complete_chat_async_world self messages request_settings w :
  (complete_chat_async acreate self messages request_settings w).2
  = (_send_chat_request acreate self messages request_settings false w).2.
Proof.
  unfold complete_chat_async, bind at 1.
  destruct (_send_chat_request _ _ _ _ _ _) as [[response|ex] w']; [|reflexivity].
  unfold bind, lift, response_choices.
  destruct (body response) as [choices|]; [|reflexivity].
  destruct choices as [|c [|c' rest]]; reflexivity.
Qed.

(** C9: a request that passes the checks issues one transport call, and the
    model-selection key of its payload is decided by [api_type]: for
    ["azure"] and ["azure_ad"] the payload binds the model identifier to
    ["engine"] (and has no ["model"] key), for every other value it binds the
    same identifier to ["model"] (and has no ["engine"] key). *)
Theorem model_key_follows_api_type
    (self : OpenAIChatCompletionBase) (messages : list (string * string))
    (rs : ChatRequestSettings) (stream : bool) (w : World) (m : string * string) :
  1 <= max_tokens rs ->
  last messages = Some m ->
  m.1 = "user" ->
  exists p,
    transport_calls (_send_chat_request acreate self messages (Some rs) stream w).2
      = transport_calls w ++ [p]
    /\ (api_type self = "azure" \/ api_type self = "azure_ad" ->
        model_args p = {[ "engine" := model_id self ]})
    /\ (api_type self <> "azure" -> api_type self <> "azure_ad" ->
        model_args p = {[ "model" := model_id self ]}).
Proof.
  intros Hmax Hlast Hrole.
  exists (build_payload self messages rs stream).
  rewrite (send_accepted acreate self messages rs stream w m Hmax Hlast Hrole).
  split; [|split].
  - destruct (acreate _) as [response|ex]; [destruct (body response)|]; simpl;
      [apply transport_calls_recorded | reflexivity | reflexivity].
  - intros Hazure. simpl. unfold build_model_args.
    rewrite bool_decide_eq_true_2; [reflexivity|].
    rewrite !elem_of_cons. tauto.
  - intros Hne1 Hne2. simpl. unfold build_model_args.
    rewrite bool_decide_eq_false_2; [reflexivity|].
    rewrite !elem_of_cons, elem_of_nil. tauto.
Qed.

(** C8: [complete_async] and [complete_stream_async] convert the
    text-completion settings into chat settings with the eight fields carried
    over, wrap the prompt as the one message [("user", prompt)], and from
    there are [complete_chat_async] and [complete_chat_stream_async] on that
    conversation; when [max_tokens] is at least 1 the transport is called
    once, with the message payload [[{role: user, content: prompt}]] and the
    settings' values. *)
Theorem text_completion_is_chat_on_one_message
    (self : OpenAIChatCompletionBase) (prompt : string)
    (rs : CompleteRequestSettings) (w : World) :
  exists cs,
    from_completion_config (Some rs) = Ok cs
    /\ (temperature cs = Complete.temperature rs
        /\ top_p cs = Complete.top_p rs
        /\ presence_penalty cs = Complete.presence_penalty rs
        /\ frequency_penalty cs = Complete.frequency_penalty rs
        /\ max_tokens cs = Complete.max_tokens rs
        /\ number_of_responses cs = Complete.number_of_responses rs
        /\ token_selection_biases cs = Complete.token_selection_biases rs
        /\ stop_sequences cs = Complete.stop_sequences rs)
    /\ complete_async acreate self prompt (Some rs)
       = complete_chat_async acreate self [("user", prompt)] (Some cs)
    /\ complete_stream_async acreate self prompt (Some rs)
       = complete_chat_stream_async acreate self [("user", prompt)] (Some cs)
    /\ (1 <= Complete.max_tokens rs ->
        forall stream,
          let p := build_payload self [("user", prompt)] cs stream in
          transport_calls (complete_async acreate self prompt (Some rs) w).2
            = transport_calls w ++ [build_payload self [("user", prompt)] cs false]
          /\ transport_calls (complete_stream_async acreate self prompt (Some rs) w).2
            = transport_calls w ++ [build_payload self [("user", prompt)] cs true]
          /\ p_messages p = [{| role := "user"; content := prompt |}]
          /\ p_temperature p = Complete.temperature rs
          /\ p_top_p p = Complete.top_p rs
          /\ p_presence_penalty p = Complete.presence_penalty rs
          /\ p_frequency_penalty p = Complete.frequency_penalty rs
          /\ p_max_tokens p = Complete.max_tokens rs
          /\ p_n p = Complete.number_of_responses rs).
Proof.
  eexists. split; [reflexivity|].
  split; [repeat split|]. split; [reflexivity|]. split; [reflexivity|].
  intros Hmax stream p.
  split; [|split; [|repeat split]].
  - change (complete_async acreate self prompt (Some rs) w)
      with (complete_chat_async acreate self [("user", prompt)]
              (Some (Build_ChatRequestSettings
                 (Complete.temperature rs) (Complete.top_p rs)
                 (Complete.presence_penalty rs) (Complete.frequency_penalty rs)
                 (Complete.max_tokens rs) (Complete.number_of_responses rs)
                 (Complete.token_selection_biases rs) (Complete.stop_sequences rs))) w).
    rewrite complete_chat_async_world.
    rewrite (send_accepted acreate self _ _ false w ("user", prompt)); try done.
    destruct (acreate _) as [response|ex]; [destruct (body response)|]; simpl;
      [apply transport_calls_recorded | reflexivity | reflexivity].
  - unfold complete_stream_async.
    rewrite (send_accepted acreate self _ _ true w ("user", prompt)); try done.
    destruct (acreate _) as [response|ex]; [destruct (body response)|]; simpl;
      [apply transport_calls_recorded | reflexivity | reflexivity].
Qed.

End Transport.

(** ** Streams: one round of the loop *)

Lemma stream_body_single n chunk choice :
  n <= 1 ->
  head (chunk_choices chunk) = Some choice ->
  stream_body (Ok n) chunk = Ok (Text (spec_fragment (delta choice))).
Proof.
  intros Hn Hhead. unfold stream_body.
  rewrite (parse_choices_first _ _ Hhead). simpl.
  rewrite bool_decide_eq_false_2 by lia. reflexivity.
Qed.

Lemma stream_body_multi n chunk choice :
  n > 1 ->
  head (chunk_choices chunk) = Some choice ->
  0 <= index choice < n ->
  stream_body (Ok n) chunk = Ok (spec_frame n choice).
Proof.
  intros Hn Hhead Hindex. unfold stream_body.
  rewrite (parse_choices_first _ _ Hhead). simpl.
  rewrite bool_decide_eq_true_2 by lia.
  rewrite py_setitem_in_range by (rewrite py_replicate_length; lia).
  reflexivity.
Qed.

Lemma stream_body_above n chunk choice :
  n > 1 ->
  head (chunk_choices chunk) = Some choice ->
  n <= index choice ->
  stream_body (Ok n) chunk
  = Raise (IndexError "list assignment index out of range").
Proof.
  intros Hn Hhead Hindex. unfold stream_body.
  rewrite (parse_choices_first _ _ Hhead). simpl.
  rewrite bool_decide_eq_true_2 by lia.
  rewrite py_setitem_above by (rewrite py_replicate_length; lia).
  reflexivity.
Qed.

Lemma stream_body_multi_ok_iff n chunk choice :
  n > 1 ->
  head (chunk_choices chunk) = Some choice ->
  (exists frame, stream_body (Ok n) chunk = Ok frame)
  <-> - n <= index choice < n.
Proof.
  intros Hn Hhead. unfold stream_body.
  rewrite (parse_choices_first _ _ Hhead). simpl.
  rewrite bool_decide_eq_true_2 by lia.
  pose proof (py_setitem_ok_iff (py_replicate "" n) (index choice)
                (spec_fragment (delta choice))) as Hiff.
  rewrite py_replicate_length, Z2Nat.id in Hiff by lia.
  rewrite <- Hiff. clear Hiff.
  destruct (py_setitem _ _ _) as [slots|ex]; simpl; split.
  - eauto.
  - eauto.
  - intros [frame H]. discriminate.
  - intros [slots H]. discriminate.
Qed.

(** The frame of the specification: [n] slots, the fragment at the reported
    index, the empty string everywhere else. *)
Lemma spec_frame_slots n choice :
  0 <= index choice < n ->
  exists slots,
    spec_frame n choice = Texts slots
    /\ length slots = Z.to_nat n
    /\ slots !! Z.to_nat (index choice) = Some (spec_fragment (delta choice))
    /\ forall j, j <> Z.to_nat (index choice) -> (j < Z.to_nat n)%nat ->
                 slots !! j = Some "".
Proof.
  intros Hindex. eexists. split; [reflexivity|].
  split; [|split].
  - rewrite length_insert, length_replicate. reflexivity.
  - apply list_lookup_insert_eq. rewrite length_replicate. lia.
  - intros j Hne Hj. rewrite list_lookup_insert_ne by auto.
    apply lookup_replicate_2. exact Hj.
Qed.

(** When every chunk's first choice satisfies [P] and the loop body maps such
    a chunk to [g] of that choice, the loop yields [g] of every first choice. *)
Lemma frames_of_first_choices loop_body (P : StreamChoice -> Prop)
    (g : StreamChoice -> Completions) chunks choices :
  (forall chunk choice,
     head (chunk_choices chunk) = Some choice -> P choice ->
     loop_body chunk = Ok (g choice)) ->
  first_choices chunks = Some <$> choices ->
  Forall P choices ->
  Forall2 (fun chunk frame => loop_body chunk = Ok frame) chunks (g <$> choices).
Proof.
  intros Hbody. revert choices.
  induction chunks as [|chunk chunks IH]; intros [|choice choices] Hfirst HP;
    try discriminate.
  - constructor.
  - simpl in Hfirst. injection Hfirst as Hhead Hrest.
    inversion HP as [|? ? Hchoice Hchoices]; subst.
    constructor; [apply Hbody; assumption | apply IH; assumption].
Qed.

(** ** The streaming operations *)

Section Streaming.

Variable acreate : Payload -> Reply.

(** A stream never gets to its loop over an asynchronous generator: a reply
    that [_send_chat_request] returns is a full response, which cannot be
    iterated, and a streamed reply has already failed the membership test.
    So no stream ever yields a frame. *)
Lemma chat_stream_no_frame self messages request_settings w :
  frames (complete_chat_stream_async acreate self messages request_settings w).1 = [].
Proof.
  unfold complete_chat_stream_async.
  destruct (_send_chat_request _ _ _ _ _ _) as [[response|ex] w'] eqn:Hsend;
    [|reflexivity].
  destruct (send_returns_full acreate _ _ _ _ _ _ _ Hsend) as [choices Hbody].
  simpl. unfold iterate. rewrite Hbody. reflexivity.
Qed.

(** The stream of an accepted request whose reply is streamed: one call, no
    frame, and the [TypeError] of the membership test at the first pull. *)
Lemma chat_stream_of_streamed_reply self messages rs w m response chunks failure :
  1 <= max_tokens rs ->
  last messages = Some m ->
  m.1 = "user" ->
  acreate (build_payload self messages rs true) = Returns response ->
  body response = ChunkStream chunks failure ->
  complete_chat_stream_async acreate self messages (Some rs) w
  = ({| frames := [];
        ending := Some (TypeError
                          "argument of type 'async_generator' is not iterable") |},
     called (build_payload self messages rs true) w).
Proof.
  intros Hmax Hlast Hrole Hreply Hbody. unfold complete_chat_stream_async.
  rewrite (send_accepted acreate self messages rs true w m Hmax Hlast Hrole).
  rewrite Hreply, Hbody. reflexivity.
Qed.

End Streaming.

(** ** Failures of the transport *)

Section Failures.

Variable acreate : Payload -> Reply.





End Failures.


(** ** The Azure binding *)

Section FromDict.

Import Azure.

Lemma from_dict_settings (settings : gmap string PyValue) :
  (from_dict settings).2
  = match settings !! "api_type" with
    | Some api_type =>
      delete "api_type"
        (<["ad_auth" := PyBool (bool_decide (api_type = PyStr "azure_ad"))]> settings)
    | None => settings
    end.
Proof. reflexivity. Qed.

Lemma from_dict_stores (settings : gmap string PyValue) service :
  (from_dict settings).1 = Ok service ->
  ad_auth service = default (PyBool false) ((from_dict settings).2 !! "ad_auth").
Proof.
  rewrite from_dict_settings. unfold from_dict.
  generalize (match settings !! "api_type" with
    | Some api_type =>
      delete "api_type"
        (<["ad_auth" := PyBool (bool_decide (api_type = PyStr "azure_ad"))]> settings)
    | None => settings
    end). intros d. cbn [fst]. unfold py_getitem.
  destruct (d !! "deployment_name"); [|discriminate].
  destruct (d !! "endpoint"); [|discriminate].
  destruct (d !! "api_key"); [|discriminate].
  cbn [rbind]. intros [= <-]. reflexivity.
Qed.

(** C5 (as amended): [from_dict] leaves a configuration dictionary without
    an ["api_type"] key as it was; one with that key loses it and gets, under
    ["ad_auth"], whether its value was ["azure_ad"], which is also the flag the
    constructed object stores; no other key of the caller's dictionary
    changes. *)
Theorem from_dict_rewrites_legacy_key (settings : gmap string PyValue) :
  (settings !! "api_type" = None -> (from_dict settings).2 = settings)
  /\
  (forall api_type,
     settings !! "api_type" = Some api_type ->
     (from_dict settings).2
       = delete "api_type"
           (<["ad_auth" := PyBool (bool_decide (api_type = PyStr "azure_ad"))]> settings)
     /\ (from_dict settings).2 !! "api_type" = None
     /\ (from_dict settings).2 !! "ad_auth"
        = Some (PyBool (bool_decide (api_type = PyStr "azure_ad")))
     /\ forall service,
          (from_dict settings).1 = Ok service ->
          ad_auth service = PyBool (bool_decide (api_type = PyStr "azure_ad")))
  /\
  (forall key,
     key <> "api_type" -> key <> "ad_auth" ->
     (from_dict settings).2 !! key = settings !! key).
Proof.
  split; [|split].
  - intros Hnone. rewrite from_dict_settings, Hnone. reflexivity.
  - intros api_type Hsome.
    assert (Hflag : (from_dict settings).2 !! "ad_auth"
                    = Some (PyBool (bool_decide (api_type = PyStr "azure_ad")))).
    { rewrite from_dict_settings, Hsome.
      rewrite lookup_delete_ne by discriminate. apply lookup_insert_eq. }
    split; [rewrite from_dict_settings, Hsome; reflexivity|].
    split; [rewrite from_dict_settings, Hsome; apply lookup_delete_eq|].
    split; [exact Hflag|].
    intros service Hservice.
    rewrite (from_dict_stores settings service Hservice), Hflag. reflexivity.
  - intros key Hne1 Hne2. rewrite from_dict_settings.
    destruct (settings !! "api_type") as [api_type|]; [|reflexivity].
    rewrite lookup_delete_ne by congruence.
    rewrite lookup_insert_ne by congruence. reflexivity.
Qed.

End FromDict.

(** ** Worked instances *)

Section Instances.

Import Sample.

Lemma invalid_request_before_transport_witness :
  (exists msg,
     complete_chat_async (answers (full ["unused"])) open_ai conversation
       (Some starved) world0
     = (Raise (AIException InvalidRequest msg None), world0))
  /\ (exists msg,
     complete_chat_async (answers (full ["unused"])) open_ai []
       (Some (chat_settings 1)) world0
     = (Raise (AIException InvalidRequest msg None), world0))
  /\ (exists msg,
     complete_chat_async (answers (full ["unused"])) open_ai
       [("user", "Hello"); ("assistant", "Hi")] (Some (chat_settings 1)) world0
     = (Raise (AIException InvalidRequest msg None), world0))
  /\ (exists msg,
     complete_async (answers (full ["unused"])) open_ai "Hello"
       (Some starved_text) world0
     = (Raise (AIException InvalidRequest msg None), world0)).
Proof.
  pose proof (invalid_request_before_transport
                (answers (full ["unused"])) open_ai world0) as [Hchat Htext].
  split; [|split; [|split]].
  - apply Hchat. left. simpl. lia.
  - apply Hchat. right. left. reflexivity.
  - apply Hchat. right. right.
    exists ("assistant", "Hi"). split; [reflexivity | discriminate].
  - apply Htext. simpl. lia.
Defined.

Lemma single_choice_is_unwrapped_witness :
  complete_chat_async (answers (full ["Hi there"])) open_ai conversation
    (Some (chat_settings 1)) world0
  = (Ok (Text "Hi there"),
     recorded (usage (full_response ["Hi there"]))
       (called (build_payload open_ai conversation (chat_settings 1) false) world0))
  /\
  complete_async (answers (full ["Hi there"])) open_ai "Hello"
    (Some (text_settings 1)) world0
  = (Ok (Text "Hi there"),
     recorded (usage (full_response ["Hi there"]))
       (called (build_payload open_ai [("user", "Hello")] (chat_settings 1) false)
          world0)).
Proof.
  split.
  - apply (proj1 (single_choice_is_unwrapped (answers (full ["Hi there"])) open_ai
                    world0 _ (full_response ["Hi there"])
                    [{| message_content := "Hi there" |}] eq_refl)).
    reflexivity.
  - apply (proj2 (single_choice_is_unwrapped (answers (full ["Hi there"])) open_ai
                    world0 _ (full_response ["Hi there"])
                    [{| message_content := "Hi there" |}] eq_refl)
             "Hello" (Some (text_settings 1)) (chat_settings 1));
      reflexivity.
Defined.


Lemma model_key_follows_api_type_witness :
  (exists p,
     transport_calls (_send_chat_request (answers (full ["ok"])) azure conversation
                        (Some (chat_settings 1)) false world0).2
       = transport_calls world0 ++ [p]
     /\ model_args p = {[ "engine" := "chat-deployment" ]})
  /\
  (exists p,
     transport_calls (_send_chat_request (answers (full ["ok"])) open_ai conversation
                        (Some (chat_settings 1)) true world0).2
       = transport_calls world0 ++ [p]
     /\ model_args p = {[ "model" := "gpt-3.5-turbo" ]}).
Proof.
  split.
  - destruct (model_key_follows_api_type (answers (full ["ok"])) azure conversation
                (chat_settings 1) false world0 ("user", "Hello"))
      as (p & Hcalls & Hengine & _).
    + simpl. lia.
    + reflexivity.
    + reflexivity.
    + exists p. split; [exact Hcalls|]. apply Hengine. left. reflexivity.
  - destruct (model_key_follows_api_type (answers (full ["ok"])) open_ai conversation
                (chat_settings 1) true world0 ("user", "Hello"))
      as (p & Hcalls & _ & Hmodel).
    + simpl. lia.
    + reflexivity.
    + reflexivity.
    + exists p. split; [exact Hcalls|]. apply Hmodel; discriminate.
Defined.

Lemma text_completion_is_chat_on_one_message_witness :
  exists cs,
    from_completion_config (Some (text_settings 3)) = Ok cs
    /\ complete_async (answers (full ["a"; "b"; "c"])) open_ai "Hello"
         (Some (text_settings 3))
       = complete_chat_async (answers (full ["a"; "b"; "c"])) open_ai
           [("user", "Hello")] (Some cs)
    /\ transport_calls (complete_async (answers (full ["a"; "b"; "c"])) open_ai "Hello"
                          (Some (text_settings 3)) world0).2
       = [build_payload open_ai [("user", "Hello")] cs false]
    /\ p_messages (build_payload open_ai [("user", "Hello")] cs false)
       = [{| role := "user"; content := "Hello" |}]
    /\ p_n (build_payload open_ai [("user", "Hello")] cs false) = 3
    /\ p_max_tokens (build_payload open_ai [("user", "Hello")] cs false) = 256.
Proof.
  destruct (text_completion_is_chat_on_one_message (answers (full ["a"; "b"; "c"]))
              open_ai "Hello" (text_settings 3) world0)
    as (cs & Hcs & _ & Hasync & _ & Hpayload).
  exists cs. split; [exact Hcs|]. split; [exact Hasync|].
  assert (Hmax : 1 <= Complete.max_tokens (text_settings 3)) by (simpl; lia).
  destruct (Hpayload Hmax false)
    as (Hcalls & _ & Hmessages & _ & _ & _ & _ & Htokens & Hn).
  split; [exact Hcalls|]. split; [exact Hmessages|].
  split; [exact Hn | exact Htokens].
Defined.


Lemma from_dict_rewrites_legacy_key_witness :
  (Azure.from_dict legacy_config).2
  = delete "api_type" (<["ad_auth" := Azure.PyBool true]> legacy_config)
  /\ (Azure.from_dict (delete "api_type" legacy_config)).2
     = delete "api_type" legacy_config.
Proof.
  split.
  - apply (proj1 (proj2 (from_dict_rewrites_legacy_key legacy_config))
             (Azure.PyStr "azure_ad")).
    reflexivity.
  - apply (proj1 (from_dict_rewrites_legacy_key (delete "api_type" legacy_config))).
    reflexivity.
Defined.

(** ** Where the code departs from the specification *)

(** C2: without settings the chat completion ends with a [ValueError], which
    is no [AIException] and carries no [InvalidRequest] code. *)
Lemma absent_settings_are_no_invalid_request :
  (complete_chat_async (answers (full ["unused"])) open_ai conversation None world0).1
  = Raise (ValueError "The request settings cannot be `None`")
  /\ error_code (ValueError "The request settings cannot be `None`")
     <> Some InvalidRequest.
Proof. split; [reflexivity | discriminate]. Qed.

(** C1: the transport answers a request for two responses with a stream of
    two chunks, index 1 with ["X"] and index 0 with ["Y"].  The call is
    made, and the first pull of the chat stream and of the text stream raises
    the [TypeError] of the membership test on the reply: no frame is
    yielded. *)
Lemma multi_response_stream_raises_before_first_frame :
  complete_chat_stream_async
    (answers (streamed [chunk None (Some "X") 1; chunk None (Some "Y") 0] None))
    open_ai conversation (Some (chat_settings 2)) world0
  = ({| frames := [];
        ending := Some (TypeError
                          "argument of type 'async_generator' is not iterable") |},
     called (build_payload open_ai conversation (chat_settings 2) true) world0)
  /\
  complete_stream_async
    (answers (streamed [chunk None (Some "X") 1; chunk None (Some "Y") 0] None))
    open_ai "Hello" (Some (text_settings 2)) world0
  = ({| frames := [];
        ending := Some (TypeError
                          "argument of type 'async_generator' is not iterable") |},
     called (build_payload open_ai [("user", "Hello")] (chat_settings 2) true) world0).
Proof. split; reflexivity. Qed.

(** C7: the transport answers a request for one response with the three
    chunks of the specification's example.  The call is made, and the first
    pull raises the [TypeError] of the membership test on the reply: none of
    the three frames is yielded. *)
Lemma single_response_stream_raises_before_first_frame :
  complete_chat_stream_async
    (answers (streamed [chunk (Some "assistant") None 0; chunk None (Some "Hi") 0;
                        chunk None (Some " there") 0] None))
    open_ai conversation (Some (chat_settings 1)) world0
  = ({| frames := [];
        ending := Some (TypeError
                          "argument of type 'async_generator' is not iterable") |},
     called (build_payload open_ai conversation (chat_settings 1) true) world0).
Proof. reflexivity. Qed.

(** C10: the transport answers a request for two responses with a stream
    whose second chunk reports index 2.  The stream ends at its first pull
    with the [TypeError] of the membership test on the reply, before any
    chunk is decoded: neither the frame of the first chunk nor the
    [IndexError] of the second is observed. *)
Lemma out_of_range_stream_raises_type_error :
  complete_chat_stream_async
    (answers (streamed [chunk None (Some "X") 1; chunk None (Some "Z") 2] None))
    open_ai conversation (Some (chat_settings 2)) world0
  = ({| frames := [];
        ending := Some (TypeError
                          "argument of type 'async_generator' is not iterable") |},
     called (build_payload open_ai conversation (chat_settings 2) true) world0)
  /\ stream_body (Ok 2) (chunk None (Some "X") 1) = Ok (Texts [""; "X"])
  /\ stream_body (Ok 2) (chunk None (Some "Z") 2)
     = Raise (IndexError "list assignment index out of range").
Proof. repeat split; reflexivity. Qed.

(** C5: the caller's dictionary had an ["api_type"] key before the call and
    has none after it. *)
Lemma from_dict_changes_callers_dict :
  legacy_config !! "api_type" = Some (Azure.PyStr "azure_ad")
  /\ (Azure.from_dict legacy_config).2 !! "api_type" = None
  /\ (Azure.from_dict legacy_config).2 !! "ad_auth" = Some (Azure.PyBool true)
  /\ legacy_config !! "ad_auth" = None
  /\ (Azure.from_dict legacy_config).2 <> legacy_config.
Proof.
  repeat split; try (vm_compute; reflexivity).
  intros H. apply (f_equal (fun d => d !! "api_type")) in H.
  vm_compute in H. discriminate.
Qed.

End Instances.

(** * Further properties of the request *)

Section RequestOutcomes.

Variable acreate : Payload -> Reply.

(** A request without settings, or one that fails a check, ends with the
    exception of the first failing check and leaves the world as it was. *)
Lemma send_unaccepted self messages request_settings stream w :
  ~ (exists rs m, request_settings = Some rs /\ 1 <= max_tokens rs
                  /\ last messages = Some m /\ m.1 = "user") ->
  exists ex,
    _send_chat_request acreate self messages request_settings stream w = (Raise ex, w)
    /\ (ex = ValueError "The request settings cannot be `None`"
        \/ exists msg, ex = AIException InvalidRequest msg None).
Proof.
  intros Hnot. destruct request_settings as [rs|].
  - destruct (decide (max_tokens rs < 1)) as [Hmax|Hmax].
    { destruct (send_rejected acreate self messages rs stream w) as [msg Hmsg];
        [left; exact Hmax|]. eauto. }
    destruct (last messages) as [m|] eqn:Hlast.
    + destruct (decide (m.1 = "user")) as [Hrole|Hrole].
      { exfalso. apply Hnot. exists rs, m. repeat split; [lia|assumption]. }
      destruct (send_rejected acreate self messages rs stream w) as [msg Hmsg];
        [right; right; eauto|]. eauto.
    + apply last_None in Hlast.
      destruct (send_rejected acreate self messages rs stream w) as [msg Hmsg];
        [right; left; exact Hlast|]. eauto.
  - eexists. split; [reflexivity|]. left. reflexivity.
Qed.

Lemma send_accepted_calls self messages rs stream w m :
  1 <= max_tokens rs -> last messages = Some m -> m.1 = "user" ->
  transport_calls (_send_chat_request acreate self messages (Some rs) stream w).2
  = transport_calls w ++ [build_payload self messages rs stream].
Proof.
  intros Hmax Hlast Hrole.
  rewrite (send_accepted acreate self messages rs stream w m Hmax Hlast Hrole).
  destruct (acreate _) as [response|ex]; [destruct (body response)|]; simpl;
    [apply transport_calls_recorded | reflexivity | reflexivity].
Qed.

Lemma accepted_dec (messages : list (string * string))
    (request_settings : option ChatRequestSettings) :
  (exists rs m, request_settings = Some rs /\ 1 <= max_tokens rs
                /\ last messages = Some m /\ m.1 = "user")
  \/ ~ (exists rs m, request_settings = Some rs /\ 1 <= max_tokens rs
                     /\ last messages = Some m /\ m.1 = "user").
Proof.
  destruct request_settings as [rs|]; [|right; intros (? & ? & [=] & _)].
  destruct (decide (1 <= max_tokens rs)) as [Hmax|Hmax];
    [|right; intros (? & ? & [= <-] & ? & _); lia].
  destruct (last messages) as [m|];
    [|right; intros (? & ? & _ & _ & [=] & _)].
  destruct (decide (m.1 = "user")) as [Hrole|Hrole].
  - left. eauto 10.
  - right. intros (? & ? & _ & _ & [= <-] & ?). contradiction.
Qed.

(** X1: the transport is reached exactly when settings are present, [max_tokens]
    is at least 1 and the last message is from the user; it is then called
    once, with the payload built from the arguments, and the calls made
    before are kept. *)
Theorem transport_reached_iff_request_valid
    (self : OpenAIChatCompletionBase) (messages : list (string * string))
    (request_settings : option ChatRequestSettings) (stream : bool) (w : World) :
  exists issued,
    transport_calls (_send_chat_request acreate self messages request_settings stream w).2
      = transport_calls w ++ issued
    /\ (issued <> [] <->
        exists rs m, request_settings = Some rs /\ 1 <= max_tokens rs
                     /\ last messages = Some m /\ m.1 = "user")
    /\ (forall p, p ∈ issued ->
        issued = [p]
        /\ exists rs, request_settings = Some rs
                      /\ p = build_payload self messages rs stream).
Proof.
  destruct (accepted_dec messages request_settings)
    as [(rs & m & -> & Hmax & Hlast & Hrole) | Hnot].
  - exists [build_payload self messages rs stream].
    split; [apply (send_accepted_calls self messages rs stream w m); assumption|].
    split.
    + split; [intros _; eauto 10 | discriminate].
    + intros p Hp. apply list_elem_of_singleton in Hp as ->. eauto.
  - exists []. destruct (send_unaccepted self messages request_settings stream w Hnot)
      as (ex & -> & _).
    split; [simpl; rewrite app_nil_r; reflexivity|].
    split.
    + split; [intros H; contradiction | intros H; contradiction].
    + intros p Hp. apply elem_of_nil in Hp. contradiction.
Qed.

Lemma send_issues_at_most_one self messages request_settings stream w :
  exists issued,
    transport_calls (_send_chat_request acreate self messages request_settings stream w).2
      = transport_calls w ++ issued
    /\ (length issued <= 1)%nat
    /\ Forall (fun p => p_stream p = stream) issued.
Proof.
  destruct (accepted_dec messages request_settings)
    as [(rs & m & -> & Hmax & Hlast & Hrole) | Hnot].
  - exists [build_payload self messages rs stream].
    split; [apply (send_accepted_calls self messages rs stream w m); assumption|].
    split; [simpl; lia|]. repeat constructor.
  - exists []. destruct (send_unaccepted self messages request_settings stream w Hnot)
      as (ex & -> & _).
    split; [simpl; rewrite app_nil_r; reflexivity|].
    split; [simpl; lia | constructor].
Qed.

Lemma complete_async_world self prompt request_settings w :
  (complete_async acreate self prompt request_settings w).2
  = match from_completion_config request_settings with
    | Ok cs => (_send_chat_request acreate self [("user", prompt)] (Some cs) false w).2
    | Raise _ => w
    end.
Proof.
  destruct request_settings as [rs|]; [|reflexivity].
  exact (complete_chat_async_world acreate self [("user", prompt)] _ w).
Qed.

Lemma complete_chat_stream_async_world self messages request_settings w :
  (complete_chat_stream_async acreate self messages request_settings w).2
  = (_send_chat_request acreate self messages request_settings true w).2.
Proof.
  unfold complete_chat_stream_async.
  destruct (_send_chat_request _ _ _ _ _ _) as [[response|ex] w']; reflexivity.
Qed.

Lemma complete_stream_async_world self prompt request_settings w :
  (complete_stream_async acreate self prompt request_settings w).2
  = match from_completion_config request_settings with
    | Ok cs => (_send_chat_request acreate self [("user", prompt)] (Some cs) true w).2
    | Raise _ => w
    end.
Proof.
  destruct request_settings as [rs|]; [|reflexivity].
  exact (complete_chat_stream_async_world self [("user", prompt)] _ w).
Qed.

(** X2: none of the four operations retries: each adds at most one call to the
    calls made before, with [stream] unset for the two completion operations
    and set for the two streams, whatever the transport answers. *)
Theorem operations_call_transport_at_most_once
    (self : OpenAIChatCompletionBase) (messages : list (string * string))
    (prompt : string) (chat_settings : option ChatRequestSettings)
    (text_settings : option CompleteRequestSettings) (w : World) :
  (exists issued,
     transport_calls (complete_chat_async acreate self messages chat_settings w).2
       = transport_calls w ++ issued
     /\ (length issued <= 1)%nat /\ Forall (fun p => p_stream p = false) issued)
  /\ (exists issued,
     transport_calls (complete_chat_stream_async acreate self messages chat_settings w).2
       = transport_calls w ++ issued
     /\ (length issued <= 1)%nat /\ Forall (fun p => p_stream p = true) issued)
  /\ (exists issued,
     transport_calls (complete_async acreate self prompt text_settings w).2
       = transport_calls w ++ issued
     /\ (length issued <= 1)%nat /\ Forall (fun p => p_stream p = false) issued)
  /\ (exists issued,
     transport_calls (complete_stream_async acreate self prompt text_settings w).2
       = transport_calls w ++ issued
     /\ (length issued <= 1)%nat /\ Forall (fun p => p_stream p = true) issued).
Proof.
  assert (Hnone : forall flag,
    exists issued : list Payload,
      transport_calls w = transport_calls w ++ issued
      /\ (length issued <= 1)%nat /\ Forall (fun p => p_stream p = flag) issued).
  { intros flag. exists []. rewrite app_nil_r.
    split; [reflexivity|]. split; [simpl; lia | constructor]. }
  split; [|split; [|split]].
  - rewrite complete_chat_async_world. apply send_issues_at_most_one.
  - rewrite complete_chat_stream_async_world. apply send_issues_at_most_one.
  - rewrite complete_async_world.
    destruct (from_completion_config text_settings) as [cs|ex];
      [apply send_issues_at_most_one | apply Hnone].
  - rewrite complete_stream_async_world.
    destruct (from_completion_config text_settings) as [cs|ex];
      [apply send_issues_at_most_one | apply Hnone].
Qed.

(** X3: the checks are made in a fixed order and the first that fails decides
    the message: the token check comes before the two message checks, so a
    request with both [max_tokens < 1] and no message reports the tokens. *)
Theorem validation_reports_first_failed_check
    (self : OpenAIChatCompletionBase) (messages : list (string * string))
    (rs : ChatRequestSettings) (stream : bool) (w : World) :
  (max_tokens rs < 1 ->
   _send_chat_request acreate self messages (Some rs) stream w
   = (Raise (AIException InvalidRequest
               ("The max tokens must be greater than 0, but was "
                  +:+ pretty (max_tokens rs)) None), w))
  /\ (1 <= max_tokens rs -> messages = [] ->
      _send_chat_request acreate self messages (Some rs) stream w
      = (Raise (AIException InvalidRequest
                  "To complete a chat you need at least one message" None), w))
  /\ (1 <= max_tokens rs ->
      forall m, last messages = Some m -> m.1 <> "user" ->
      _send_chat_request acreate self messages (Some rs) stream w
      = (Raise (AIException InvalidRequest
                  "The last message must be from the user" None), w)).
Proof.
  unfold _send_chat_request. split; [|split].
  - intros Hmax. rewrite bool_decide_eq_true_2 by exact Hmax. reflexivity.
  - intros Hmax ->. rewrite bool_decide_eq_false_2 by lia. reflexivity.
  - intros Hmax m Hlast Hrole.
    rewrite bool_decide_eq_false_2 by lia.
    rewrite bool_decide_eq_false_2
      by (destruct messages; [discriminate | simpl; lia]).
    rewrite Hlast. rewrite bool_decide_eq_true_2 by exact Hrole. reflexivity.
Qed.

(** X4: the payload of an accepted request carries the conversation unchanged:
    reading the role and the content of its entries back gives the messages,
    in their order. *)
Theorem payload_messages_read_back
    (self : OpenAIChatCompletionBase) (messages : list (string * string))
    (rs : ChatRequestSettings) (stream : bool) (w : World) (m : string * string) :
  1 <= max_tokens rs ->
  last messages = Some m ->
  m.1 = "user" ->
  exists p,
    transport_calls (_send_chat_request acreate self messages (Some rs) stream w).2
      = transport_calls w ++ [p]
    /\ (fun entry => (role entry, content entry)) <$> p_messages p = messages
    /\ length (p_messages p) = length messages.
Proof.
  intros Hmax Hlast Hrole. exists (build_payload self messages rs stream).
  split; [apply (send_accepted_calls self messages rs stream w m); assumption|].
  simpl. unfold format_messages. split; [|apply length_fmap].
  clear. induction messages as [|[r c] messages IH]; [reflexivity|].
  simpl. f_equal. exact IH.
Qed.

(** X5: the payload of an accepted request never carries an empty stop list:
    [stop] is unset when the settings have no stop sequences or an empty
    list, and is the settings' list otherwise; [logit_bias] is the settings'
    bias map, or the empty map when the settings have none. *)
Theorem payload_stop_and_bias_normalised
    (self : OpenAIChatCompletionBase) (messages : list (string * string))
    (rs : ChatRequestSettings) (stream : bool) (w : World) (m : string * string) :
  1 <= max_tokens rs ->
  last messages = Some m ->
  m.1 = "user" ->
  exists p,
    transport_calls (_send_chat_request acreate self messages (Some rs) stream w).2
      = transport_calls w ++ [p]
    /\ p_stop p <> Some []
    /\ (p_stop p = None <-> stop_sequences rs = None \/ stop_sequences rs = Some [])
    /\ (forall l, p_stop p = Some l -> stop_sequences rs = Some l)
    /\ p_logit_bias p = default ∅ (token_selection_biases rs).
Proof.
  intros Hmax Hlast Hrole. exists (build_payload self messages rs stream).
  split; [apply (send_accepted_calls self messages rs stream w m); assumption|].
  simpl. destruct (stop_sequences rs) as [[|s l]|]; simpl.
  - split; [discriminate|]. split; [tauto|]. split; [discriminate|].
    destruct (token_selection_biases rs) as [b|]; [|reflexivity].
    case_bool_decide as Hsize; [reflexivity|]. simpl.
    symmetry. apply map_size_empty_inv. lia.
  - split; [discriminate|].
    split; [split; [discriminate | intros [H|H]; discriminate]|].
    split; [intros l' [= <-]; reflexivity|].
    destruct (token_selection_biases rs) as [b|]; [|reflexivity].
    case_bool_decide as Hsize; [reflexivity|]. simpl.
    symmetry. apply map_size_empty_inv. lia.
  - split; [discriminate|]. split; [tauto|]. split; [discriminate|].
    destruct (token_selection_biases rs) as [b|]; [|reflexivity].
    case_bool_decide as Hsize; [reflexivity|]. simpl.
    symmetry. apply map_size_empty_inv. lia.
Qed.

(** X6: the usage hook is given the reply's usage once, after a reply that has
    one; a request that ends with an exception, from a check or from the
    transport, never reaches the hook. *)
Theorem usage_captured_only_from_replies
    (self : OpenAIChatCompletionBase) (messages : list (string * string))
    (request_settings : option ChatRequestSettings) (stream : bool) (w : World) :
  (forall response w',
     _send_chat_request acreate self messages request_settings stream w
       = (Ok response, w') ->
     captured_usage w'
     = captured_usage w ++ match usage response with Some u => [u] | None => [] end)
  /\ (forall ex w',
     _send_chat_request acreate self messages request_settings stream w
       = (Raise ex, w') ->
     captured_usage w' = captured_usage w).
Proof.
  split.
  - intros response w' Hsend.
    destruct (send_returns_inv acreate _ _ _ _ _ _ _ Hsend) as (rs & _ & _ & ->).
    destruct (usage response); simpl; [reflexivity | rewrite app_nil_r; reflexivity].
  - intros ex w' Hsend.
    destruct (accepted_dec messages request_settings)
      as [(rs & m & -> & Hmax & Hlast & Hrole) | Hnot].
    + rewrite (send_accepted acreate self messages rs stream w m Hmax Hlast Hrole)
        in Hsend.
      destruct (acreate _) as [response|ex']; [destruct (body response)|];
        [discriminate | |]; injection Hsend as _ <-; reflexivity.
    + destruct (send_unaccepted self messages request_settings stream w Hnot)
        as (ex' & Hex & _).
      rewrite Hex in Hsend. injection Hsend as _ <-. reflexivity.
Qed.

End RequestOutcomes.

(** * Further properties of the streams *)

Lemma stream_body_multi_shape n chunk frame :
  n > 1 ->
  stream_body (Ok n) chunk = Ok frame ->
  exists (k : nat) (text : string),
    (k < Z.to_nat n)%nat
    /\ frame = Texts (<[k := text]> (replicate (Z.to_nat n) "")).
Proof.
  intros Hn. unfold stream_body, _parse_choices.
  destruct (chunk_choices chunk) as [|choice rest]; simpl; [discriminate|].
  rewrite bool_decide_eq_true_2 by lia.
  unfold py_setitem. rewrite py_replicate_length.
  repeat case_bool_decide; simpl; try discriminate;
    intros [= <-]; eexists _, _; (split; [|reflexivity]); lia.
Qed.

Lemma stream_body_wraps n chunk choice :
  n > 1 ->
  head (chunk_choices chunk) = Some choice ->
  - n <= index choice < n ->
  stream_body (Ok n) chunk
  = Ok (Texts (<[Z.to_nat (index choice mod n) := spec_fragment (delta choice)]>
                 (replicate (Z.to_nat n) ""))).
Proof.
  intros Hn Hhead Hindex. unfold stream_body.
  rewrite (parse_choices_first _ _ Hhead). simpl.
  rewrite bool_decide_eq_true_2 by lia.
  unfold py_setitem. rewrite py_replicate_length, Z2Nat.id by lia.
  case_bool_decide as Hpos.
  - rewrite Z.mod_small by lia. reflexivity.
  - rewrite bool_decide_eq_true_2 by lia. simpl.
    replace (index choice mod n) with (n + index choice); [reflexivity|].
    rewrite <- (Z_mod_plus_full (index choice) 1 n).
    rewrite Z.mod_small by lia. lia.
Qed.

Lemma async_for_counts loop_body chunks failure :
  (length (frames (async_for loop_body chunks failure)) <= length chunks)%nat
  /\ (length (frames (async_for loop_body chunks failure)) = length chunks ->
      ending (async_for loop_body chunks failure) = failure)
  /\ ((length (frames (async_for loop_body chunks failure)) < length chunks)%nat ->
      exists chunk ex,
        chunks !! length (frames (async_for loop_body chunks failure)) = Some chunk
        /\ loop_body chunk = Raise ex
        /\ ending (async_for loop_body chunks failure) = Some ex).
Proof.
  induction chunks as [|chunk chunks (IHle & IHeq & IHlt)]; simpl.
  - split; [lia|]. split; [reflexivity | lia].
  - destruct (loop_body chunk) as [frame|ex] eqn:Hchunk; simpl.
    + split; [lia|]. split; [intros H; apply IHeq; lia | intros H; apply IHlt; lia].
    + split; [lia|]. split; [discriminate|]. intros _. eauto.
Qed.

Lemma parse_choices_by_head chunk1 chunk2 :
  head (chunk_choices chunk1) = head (chunk_choices chunk2) ->
  _parse_choices chunk1 = _parse_choices chunk2.
Proof.
  unfold _parse_choices.
  destruct (chunk_choices chunk1), (chunk_choices chunk2); simpl;
    try discriminate; [reflexivity|]. intros [= ->]. reflexivity.
Qed.

Lemma stream_body_by_head n chunk1 chunk2 :
  head (chunk_choices chunk1) = head (chunk_choices chunk2) ->
  stream_body n chunk1 = stream_body n chunk2.
Proof.
  intros Hhead. unfold stream_body.
  rewrite (parse_choices_by_head chunk1 chunk2 Hhead). reflexivity.
Qed.

Lemma async_for_by_head n chunks1 chunks2 failure :
  first_choices chunks1 = first_choices chunks2 ->
  async_for (stream_body n) chunks1 failure
  = async_for (stream_body n) chunks2 failure.
Proof.
  revert chunks2. induction chunks1 as [|c1 chunks1 IH]; intros [|c2 chunks2];
    simpl; try discriminate; [reflexivity|].
  intros [= Hhead Hrest].
  rewrite (stream_body_by_head n c1 c2 Hhead), (IH chunks2 Hrest). reflexivity.
Qed.

Section StreamOutcomes.

Variable acreate : Payload -> Reply.

(** X7: a stream whose request fails a check yields nothing: its first pull
    raises the [InvalidRequest] exception (without settings: the
    [ValueError] of the chat stream, the [AttributeError] of the text
    stream), and no call reaches the transport. *)
Theorem stream_rejected_before_transport
    (self : OpenAIChatCompletionBase) (w : World) :
  (forall (messages : list (string * string)) (rs : ChatRequestSettings),
     max_tokens rs < 1 \/ messages = [] \/
       (exists m, last messages = Some m /\ m.1 <> "user") ->
     exists msg,
       complete_chat_stream_async acreate self messages (Some rs) w
       = ({| frames := []; ending := Some (AIException InvalidRequest msg None) |}, w))
  /\ (forall (prompt : string) (rs : CompleteRequestSettings),
     Complete.max_tokens rs < 1 ->
     exists msg,
       complete_stream_async acreate self prompt (Some rs) w
       = ({| frames := []; ending := Some (AIException InvalidRequest msg None) |}, w))
  /\ (forall messages,
     complete_chat_stream_async acreate self messages None w
     = ({| frames := [];
           ending := Some (ValueError "The request settings cannot be `None`") |}, w))
  /\ (forall prompt,
     complete_stream_async acreate self prompt None w
     = ({| frames := [];
           ending := Some (AttributeError
                             "'NoneType' object has no attribute 'temperature'") |},
        w)).
Proof.
  split; [|split; [|split]].
  - intros messages rs H.
    destruct (send_rejected acreate self messages rs true w H) as [msg Hmsg].
    exists msg. unfold complete_chat_stream_async. rewrite Hmsg. reflexivity.
  - intros prompt rs H.
    destruct (send_rejected acreate self [("user", prompt)]
                {| temperature := Complete.temperature rs;
                   top_p := Complete.top_p rs;
                   presence_penalty := Complete.presence_penalty rs;
                   frequency_penalty := Complete.frequency_penalty rs;
                   max_tokens := Complete.max_tokens rs;
                   number_of_responses := Complete.number_of_responses rs;
                   token_selection_biases := Complete.token_selection_biases rs;
                   stop_sequences := Complete.stop_sequences rs |} true w)
      as [msg Hmsg]; [left; exact H|].
    exists msg. unfold complete_stream_async. rewrite Hmsg. reflexivity.
  - reflexivity.
  - reflexivity.
Qed.

(** X18: no stream ever yields a frame.  A reply that the request hands back
    is a full response, which the loop cannot iterate; a streamed reply, the
    asynchronous generator the loop is written for, fails the membership test
    on ["usage"] before the loop is reached: the call was made, and the
    first pull raises [TypeError]. *)
Theorem streams_never_yield_a_frame
    (self : OpenAIChatCompletionBase) (w : World) :
  (forall messages request_settings,
     frames (complete_chat_stream_async acreate self messages request_settings w).1
     = [])
  /\ (forall prompt request_settings,
     frames (complete_stream_async acreate self prompt request_settings w).1 = [])
  /\ (forall messages rs m response chunks failure,
     1 <= max_tokens rs -> last messages = Some m -> m.1 = "user" ->
     acreate (build_payload self messages rs true) = Returns response ->
     body response = ChunkStream chunks failure ->
     complete_chat_stream_async acreate self messages (Some rs) w
     = ({| frames := [];
           ending := Some (TypeError
                             "argument of type 'async_generator' is not iterable") |},
        called (build_payload self messages rs true) w)).
Proof.
  split; [|split].
  - intros messages request_settings. apply chat_stream_no_frame.
  - intros prompt [rs|]; [|reflexivity].
    exact (chat_stream_no_frame acreate self [("user", prompt)] _ w).
  - intros messages rs m response chunks failure.
    apply chat_stream_of_streamed_reply.
Qed.

End StreamOutcomes.

(** ** The loop over the chunks of a reply

    The statements below are about the loop of the two streams, lines 53 to
    62 and 112 to 121, run over the chunks of a streamed reply. *)

(** X8: a chunk without any choice stops the loop, whatever the number of
    responses: the frames of the chunks before it were yielded, decoding it
    raises [IndexError], and the chunks after it are never decoded. *)
Theorem chunk_without_choices_stops_stream
    (n : Z) (response : Response) (before after : list Chunk) (chunk : Chunk)
    (failure : option Exception) (fs : list Completions) :
  body response = ChunkStream (before ++ chunk :: after) failure ->
  Forall2 (fun c frame => stream_body (Ok n) c = Ok frame) before fs ->
  chunk_choices chunk = [] ->
  iterate (stream_body (Ok n)) response
  = {| frames := fs; ending := Some (IndexError "list index out of range") |}.
Proof.
  intros Hbody Hbefore Hempty. unfold iterate. rewrite Hbody.
  apply async_for_stops; [exact Hbefore|].
  unfold stream_body. rewrite parse_choices_empty; [reflexivity|].
  rewrite Hempty. reflexivity.
Qed.

(** X9: with more than one requested response, an index from [-n] to [n - 1]
    is a position of the array as Python counts it: the loop writes the
    fragment at [index mod n], so [-1] is the last slot. *)
Theorem negative_index_counts_from_end
    (n : Z) (response : Response) (chunks : list Chunk)
    (failure : option Exception) (choices : list StreamChoice) :
  n > 1 ->
  body response = ChunkStream chunks failure ->
  first_choices chunks = Some <$> choices ->
  Forall (fun choice => - n <= index choice < n) choices ->
  iterate (stream_body (Ok n)) response
  = {| frames :=
         (fun choice =>
            Texts (<[Z.to_nat (index choice mod n) := spec_fragment (delta choice)]>
                     (replicate (Z.to_nat n) "")))
           <$> choices;
       ending := failure |}.
Proof.
  intros Hn Hbody Hfirst Hrange. unfold iterate. rewrite Hbody.
  apply async_for_all_ok.
  apply (frames_of_first_choices _ (fun choice => - n <= index choice < n));
    [|assumption|assumption].
  intros chunk choice Hhead Hi. apply stream_body_wraps; assumption.
Qed.

(** X10: with more than one requested response, every frame the loop
    yields, for any chunks, is an array of exactly [n] strings of which at
    most one slot is not the empty string. *)
Theorem multi_response_frame_shape
    (n : Z) (response : Response) (k : nat) (frame : Completions) :
  n > 1 ->
  frames (iterate (stream_body (Ok n)) response) !! k = Some frame ->
  exists slots (position : nat),
    frame = Texts slots
    /\ length slots = Z.to_nat n
    /\ forall j, j <> position -> (j < length slots)%nat -> slots !! j = Some "".
Proof.
  intros Hn. unfold iterate.
  destruct (body response) as [|chunks failure]; [discriminate|].
  intros Hframe. apply async_for_frames in Hframe as (chunk & _ & Hchunk).
  destruct (stream_body_multi_shape _ _ _ Hn Hchunk) as (position & text & Hpos & ->).
  eexists _, position. split; [reflexivity|].
  rewrite length_insert, length_replicate. split; [reflexivity|].
  intros j Hne Hj. rewrite list_lookup_insert_ne by auto.
  apply lookup_replicate_2. exact Hj.
Qed.

(** X11: the loop yields one frame per chunk for as long as the chunks
    decode: never more frames than chunks; with a frame for every chunk it
    ends as the reply ends; with fewer it ended with the exception that
    decoding the first chunk without a frame raised. *)
Theorem stream_yields_one_frame_per_chunk
    (n : Z) (response : Response) (chunks : list Chunk)
    (failure : option Exception) :
  body response = ChunkStream chunks failure ->
  (length (frames (iterate (stream_body (Ok n)) response)) <= length chunks)%nat
  /\ (length (frames (iterate (stream_body (Ok n)) response)) = length chunks ->
      ending (iterate (stream_body (Ok n)) response) = failure)
  /\ ((length (frames (iterate (stream_body (Ok n)) response)) < length chunks)%nat ->
      exists chunk ex,
        chunks !! length (frames (iterate (stream_body (Ok n)) response)) = Some chunk
        /\ stream_body (Ok n) chunk = Raise ex
        /\ ending (iterate (stream_body (Ok n)) response) = Some ex).
Proof.
  intros Hbody. unfold iterate. rewrite Hbody. apply async_for_counts.
Qed.

(** X16: with at most one requested response, the loop yields one string
    per chunk, in the order of arrival: the role of the chunk's first choice
    followed by [": "] when the delta has a role, then its content when the
    delta has one; the reported index is not used. *)
Theorem loop_yields_fragments_for_single_response
    (n : Z) (response : Response) (chunks : list Chunk)
    (failure : option Exception) (choices : list StreamChoice) :
  n <= 1 ->
  body response = ChunkStream chunks failure ->
  first_choices chunks = Some <$> choices ->
  iterate (stream_body (Ok n)) response
  = {| frames := (fun choice => Text (spec_fragment (delta choice))) <$> choices;
       ending := failure |}
  /\ (forall d,
        spec_fragment d
        = match delta_role d, delta_content d with
          | Some r, Some c => (r +:+ ": ") +:+ c
          | Some r, None => r +:+ ": "
          | None, Some c => c
          | None, None => ""
          end).
Proof.
  intros Hn Hbody Hfirst. split.
  - unfold iterate. rewrite Hbody. apply async_for_all_ok.
    apply (frames_of_first_choices _ (fun _ => True)
             (fun choice => Text (spec_fragment (delta choice))));
      [|assumption|].
    + intros chunk choice Hhead _. apply stream_body_single; assumption.
    + apply Forall_forall. intros; exact I.
  - intros d. unfold spec_fragment.
    destruct (delta_role d) as [r|], (delta_content d) as [c|]; try reflexivity.
    apply append_empty_r.
Qed.

(** X17: with more than one requested response, the loop yields for every
    chunk with an index in [0 .. n-1] a new array of [n] strings with the
    fragment at that index and the empty string elsewhere, and a chunk that
    reports an index of [n] or more stops it with [IndexError], after the
    frames of the chunks before it; a chunk is given a frame exactly when
    its index is from [-n] to [n - 1]. *)
Theorem loop_stops_at_out_of_range_index
    (n : Z) (response : Response) (before after : list Chunk) (chunk : Chunk)
    (failure : option Exception) (choices : list StreamChoice)
    (choice : StreamChoice) :
  n > 1 ->
  body response = ChunkStream (before ++ chunk :: after) failure ->
  first_choices before = Some <$> choices ->
  Forall (fun choice => 0 <= index choice < n) choices ->
  head (chunk_choices chunk) = Some choice ->
  n <= index choice ->
  iterate (stream_body (Ok n)) response
  = {| frames := spec_frame n <$> choices;
       ending := Some (IndexError "list assignment index out of range") |}
  /\ Forall (fun choice =>
               exists slots,
                 spec_frame n choice = Texts slots
                 /\ length slots = Z.to_nat n
                 /\ slots !! Z.to_nat (index choice)
                    = Some (spec_fragment (delta choice))
                 /\ forall j, j <> Z.to_nat (index choice) ->
                              (j < Z.to_nat n)%nat -> slots !! j = Some "") choices
  /\ (forall chunk' choice',
        head (chunk_choices chunk') = Some choice' ->
        (exists frame, stream_body (Ok n) chunk' = Ok frame)
        <-> - n <= index choice' < n).
Proof.
  intros Hn Hbody Hfirst Hrange Hhead Hindex. split; [|split].
  - unfold iterate. rewrite Hbody. apply async_for_stops.
    + apply (frames_of_first_choices _ (fun choice => 0 <= index choice < n));
        [|assumption|assumption].
      intros c ch Hc Hi. apply stream_body_multi; assumption.
    + apply (stream_body_above n chunk choice); assumption.
  - eapply Forall_impl; [exact Hrange|].
    intros ch Hi. apply spec_frame_slots. exact Hi.
  - intros chunk' choice' Hhead'. apply stream_body_multi_ok_iff; assumption.
Qed.

(** X12: only the first choice of a chunk is decoded: two replies whose chunks
    agree on their first choices, and that end alike, give the same stream,
    whatever other choices their chunks carry. *)
Theorem only_first_choice_is_decoded
    (n : Result Z) (response1 response2 : Response)
    (chunks1 chunks2 : list Chunk) (failure : option Exception) :
  body response1 = ChunkStream chunks1 failure ->
  body response2 = ChunkStream chunks2 failure ->
  first_choices chunks1 = first_choices chunks2 ->
  iterate (stream_body n) response1 = iterate (stream_body n) response2.
Proof.
  intros Hbody1 Hbody2 Hfirst. unfold iterate. rewrite Hbody1, Hbody2.
  apply async_for_by_head. exact Hfirst.
Qed.

(** * Further properties of the Azure binding *)

Section FromDictOutcomes.

Import Azure.

(** The object is built from the dictionary as the call leaves it. *)
Lemma from_dict_unfold (settings : gmap string PyValue) :
  from_dict settings
  = (let? deployment_name := py_getitem (from_dict settings).2 "deployment_name" in
     let? endpoint := py_getitem (from_dict settings).2 "endpoint" in
     let? api_key := py_getitem (from_dict settings).2 "api_key" in
     Ok (__init__ deployment_name endpoint api_key
           ((from_dict settings).2 !! "api_version")
           (default (PyBool false) ((from_dict settings).2 !! "ad_auth"))
           ((from_dict settings).2 !! "log") None).2,
     (from_dict settings).2).
Proof. reflexivity. Qed.

Lemma from_dict_other_keys (settings : gmap string PyValue) key :
  key <> "api_type" -> key <> "ad_auth" ->
  (from_dict settings).2 !! key = settings !! key.
Proof.
  intros Hne1 Hne2. rewrite from_dict_settings.
  destruct (settings !! "api_type") as [api_type|]; [|reflexivity].
  rewrite lookup_delete_ne by congruence.
  rewrite lookup_insert_ne by congruence. reflexivity.
Qed.

Lemma from_dict_drops_legacy_key (settings : gmap string PyValue) :
  (from_dict settings).2 !! "api_type" = None.
Proof.
  rewrite from_dict_settings.
  destruct (settings !! "api_type") as [api_type|] eqn:Hkey;
    [apply lookup_delete_eq | exact Hkey].
Qed.

Lemma from_dict_result (settings : gmap string PyValue) :
  (from_dict settings).1
  = (let? deployment_name := py_getitem settings "deployment_name" in
     let? endpoint := py_getitem settings "endpoint" in
     let? api_key := py_getitem settings "api_key" in
     Ok (__init__ deployment_name endpoint api_key
           (settings !! "api_version")
           (default (PyBool false) ((from_dict settings).2 !! "ad_auth"))
           (settings !! "log") None).2).
Proof.
  rewrite from_dict_unfold at 1. cbn [fst]. unfold py_getitem.
  rewrite (from_dict_other_keys settings "deployment_name") by discriminate.
  rewrite (from_dict_other_keys settings "endpoint") by discriminate.
  rewrite (from_dict_other_keys settings "api_key") by discriminate.
  rewrite (from_dict_other_keys settings "api_version") by discriminate.
  rewrite (from_dict_other_keys settings "log") by discriminate.
  reflexivity.
Qed.

(** X13: [from_dict] needs the three keys ["deployment_name"], ["endpoint"] and
    ["api_key"]: it constructs the object exactly when the dictionary has all
    three, and otherwise raises [KeyError] for the first one missing, in that
    order. *)
Theorem from_dict_needs_three_keys (settings : gmap string PyValue) :
  ((exists service, (from_dict settings).1 = Ok service)
   <-> is_Some (settings !! "deployment_name")
       /\ is_Some (settings !! "endpoint")
       /\ is_Some (settings !! "api_key"))
  /\ (settings !! "deployment_name" = None ->
      (from_dict settings).1 = Raise (KeyError "deployment_name"))
  /\ (is_Some (settings !! "deployment_name") ->
      settings !! "endpoint" = None ->
      (from_dict settings).1 = Raise (KeyError "endpoint"))
  /\ (is_Some (settings !! "deployment_name") ->
      is_Some (settings !! "endpoint") ->
      settings !! "api_key" = None ->
      (from_dict settings).1 = Raise (KeyError "api_key")).
Proof.
  rewrite from_dict_result. unfold py_getitem.
  destruct (settings !! "deployment_name") as [dn|],
           (settings !! "endpoint") as [ep|],
           (settings !! "api_key") as [key|]; cbn [rbind];
    (split; [split; [intros [service H]; try discriminate H; eauto
                    | intros (H1 & H2 & H3);
                      try (destruct H1 as [? H1]; discriminate H1);
                      try (destruct H2 as [? H2]; discriminate H2);
                      try (destruct H3 as [? H3]; discriminate H3);
                      eauto] |]);
    (split; [intros H; try discriminate H; reflexivity|]);
    (split; [intros H1 H2; try discriminate H2;
             try (destruct H1 as [? H1]; discriminate H1); reflexivity|]);
    intros H1 H2 H3; try discriminate H3;
    try (destruct H1 as [? H1]; discriminate H1);
    try (destruct H2 as [? H2]; discriminate H2); reflexivity.
Qed.

(** X14: a constructed object stores the dictionary's three required
    values and its ["api_version"] entry ([None] when absent); its log is the
    ["log"] entry when that entry is true, and [None] when it is absent or
    false, since the constructor passes [log or logger] on and [from_dict]
    gives it no [logger]; without a legacy key the flag is the ["ad_auth"]
    entry, or [False] when absent. *)
Theorem from_dict_stores_entries
    (settings : gmap string PyValue) (service : AzureChatCompletion) :
  (from_dict settings).1 = Ok service ->
  settings !! "deployment_name" = Some (deployment_name service)
  /\ settings !! "endpoint" = Some (endpoint service)
  /\ settings !! "api_key" = Some (api_key service)
  /\ api_version service = settings !! "api_version"
  /\ log service
     = match settings !! "log" with
       | Some v => if truthy v then Some v else None
       | None => None
       end
  /\ (settings !! "api_type" = None ->
      ad_auth service = default (PyBool false) (settings !! "ad_auth")).
Proof.
  rewrite from_dict_result. unfold py_getitem.
  destruct (settings !! "deployment_name") as [dn|]; [|discriminate].
  destruct (settings !! "endpoint") as [ep|]; [|discriminate].
  destruct (settings !! "api_key") as [key|]; [|discriminate].
  cbn [rbind]. intros [= <-].
  cbn [deployment_name endpoint api_key api_version log ad_auth __init__
       BaseAzureConfig__init__ snd].
  repeat (split; [reflexivity|]).
  split.
  - unfold py_or, truthy_opt. destruct (settings !! "log") as [v|]; [|reflexivity].
    destruct (truthy v); reflexivity.
  - intros Hnone. rewrite Hnone. reflexivity.
Qed.

(** X15: calling [from_dict] again on the dictionary a first call left behind
    changes nothing more and gives the same result: the legacy key is
    consumed by the first call. *)
Theorem from_dict_again_is_same (settings : gmap string PyValue) :
  from_dict (from_dict settings).2 = from_dict settings.
Proof.
  assert (Hsame : (from_dict (from_dict settings).2).2 = (from_dict settings).2).
  { rewrite (from_dict_settings (from_dict settings).2).
    rewrite from_dict_drops_legacy_key. reflexivity. }
  rewrite (from_dict_unfold (from_dict settings).2), Hsame.
  symmetry. apply from_dict_unfold.
Qed.

End FromDictOutcomes.

(** ** Worked instances of the further properties *)

Section FurtherInstances.

Import Sample.

Lemma validation_reports_first_failed_check_witness :
  _send_chat_request (answers (full ["unused"])) open_ai [] (Some starved) false world0
  = (Raise (AIException InvalidRequest
              "The max tokens must be greater than 0, but was 0" None), world0)
  /\ _send_chat_request (answers (full ["unused"])) open_ai [] (Some (chat_settings 1))
       false world0
     = (Raise (AIException InvalidRequest
                 "To complete a chat you need at least one message" None), world0)
  /\ _send_chat_request (answers (full ["unused"])) open_ai
       [("user", "Hello"); ("assistant", "Hi")] (Some (chat_settings 1)) false world0
     = (Raise (AIException InvalidRequest
                 "The last message must be from the user" None), world0).
Proof.
  split; [|split].
  - apply (proj1 (validation_reports_first_failed_check
                    (answers (full ["unused"])) open_ai [] starved false world0)).
    simpl. lia.
  - apply (proj1 (proj2 (validation_reports_first_failed_check
                           (answers (full ["unused"])) open_ai []
                           (chat_settings 1) false world0)));
      [simpl; lia | reflexivity].
  - apply (proj2 (proj2 (validation_reports_first_failed_check
                           (answers (full ["unused"])) open_ai
                           [("user", "Hello"); ("assistant", "Hi")]
                           (chat_settings 1) false world0))
             ltac:(simpl; lia) ("assistant", "Hi"));
      [reflexivity | discriminate].
Defined.

Lemma payload_messages_read_back_witness :
  exists p,
    transport_calls (_send_chat_request (answers (full ["ok"])) open_ai conversation
                       (Some (chat_settings 1)) false world0).2
      = transport_calls world0 ++ [p]
    /\ (fun entry => (role entry, content entry)) <$> p_messages p = conversation
    /\ length (p_messages p) = length conversation.
Proof.
  apply (payload_messages_read_back (answers (full ["ok"])) open_ai conversation
           (chat_settings 1) false world0 ("user", "Hello"));
    [simpl; lia | reflexivity | reflexivity].
Defined.

Lemma payload_stop_and_bias_normalised_witness :
  exists p,
    transport_calls (_send_chat_request (answers (full ["ok"])) open_ai conversation
                       (Some (chat_settings 1)) false world0).2
      = transport_calls world0 ++ [p]
    /\ p_stop p <> Some []
    /\ (p_stop p = None <->
        stop_sequences (chat_settings 1) = None
        \/ stop_sequences (chat_settings 1) = Some [])
    /\ (forall l, p_stop p = Some l -> stop_sequences (chat_settings 1) = Some l)
    /\ p_logit_bias p = default ∅ (token_selection_biases (chat_settings 1)).
Proof.
  apply (payload_stop_and_bias_normalised (answers (full ["ok"])) open_ai conversation
           (chat_settings 1) false world0 ("user", "Hello"));
    [simpl; lia | reflexivity | reflexivity].
Defined.

Lemma usage_captured_only_from_replies_witness :
  captured_usage
    (recorded (usage (full_response ["ok"]))
       (called (build_payload open_ai conversation (chat_settings 1) false) world0))
  = captured_usage world0
      ++ [{| prompt_tokens := 9; completion_tokens := 3; total_tokens := 12 |}]
  /\ captured_usage (called (build_payload open_ai conversation (chat_settings 1) false)
                       world0)
     = captured_usage world0.
Proof.
  split.
  - apply (proj1 (usage_captured_only_from_replies (answers (full ["ok"])) open_ai
                    conversation (Some (chat_settings 1)) false world0)
             (full_response ["ok"])).
    reflexivity.
  - apply (proj2 (usage_captured_only_from_replies (answers (Raises timeout)) open_ai
                    conversation (Some (chat_settings 1)) false world0)
             (AIException ServiceError "OpenAI service failed to complete the chat"
                (Some timeout))).
    reflexivity.
Defined.

Lemma stream_rejected_before_transport_witness :
  (exists msg,
     complete_chat_stream_async (answers (streamed [] None)) open_ai conversation
       (Some starved) world0
     = ({| frames := []; ending := Some (AIException InvalidRequest msg None) |},
        world0))
  /\ (exists msg,
     complete_stream_async (answers (streamed [] None)) open_ai "Hello"
       (Some starved_text) world0
     = ({| frames := []; ending := Some (AIException InvalidRequest msg None) |},
        world0)).
Proof.
  destruct (stream_rejected_before_transport (answers (streamed [] None)) open_ai world0)
    as (Hchat & Htext & _).
  split.
  - apply Hchat. left. simpl. lia.
  - apply Htext. simpl. lia.
Defined.

Lemma chunk_without_choices_stops_stream_witness :
  iterate (stream_body (Ok 1))
    (streamed_response [chunk None (Some "Hi") 0; {| chunk_choices := [] |};
                        chunk None (Some " there") 0] None)
  = {| frames := [Text "Hi"];
       ending := Some (IndexError "list index out of range") |}.
Proof.
  apply (chunk_without_choices_stops_stream 1
           (streamed_response [chunk None (Some "Hi") 0; {| chunk_choices := [] |};
                               chunk None (Some " there") 0] None)
           [chunk None (Some "Hi") 0] [chunk None (Some " there") 0]
           {| chunk_choices := [] |} None [Text "Hi"]);
    [reflexivity | repeat constructor | reflexivity].
Defined.

Lemma negative_index_counts_from_end_witness :
  iterate (stream_body (Ok 3))
    (streamed_response [chunk None (Some "X") (-1); chunk None (Some "Y") (-3);
                        chunk None (Some "Z") 1] None)
  = {| frames := [Texts [""; ""; "X"]; Texts ["Y"; ""; ""]; Texts [""; "Z"; ""]];
       ending := None |}.
Proof.
  apply (negative_index_counts_from_end 3
           (streamed_response [chunk None (Some "X") (-1); chunk None (Some "Y") (-3);
                               chunk None (Some "Z") 1] None)
           [chunk None (Some "X") (-1); chunk None (Some "Y") (-3);
            chunk None (Some "Z") 1] None
           [{| delta := {| delta_role := None; delta_content := Some "X" |};
               index := -1 |};
            {| delta := {| delta_role := None; delta_content := Some "Y" |};
               index := -3 |};
            {| delta := {| delta_role := None; delta_content := Some "Z" |};
               index := 1 |}]);
    [lia | reflexivity | reflexivity | repeat constructor; simpl; lia].
Defined.

Lemma multi_response_frame_shape_witness :
  exists slots (position : nat),
    Texts [""; "X"] = Texts slots
    /\ length slots = Z.to_nat 2
    /\ forall j, j <> position -> (j < length slots)%nat -> slots !! j = Some "".
Proof.
  apply (multi_response_frame_shape 2
           (streamed_response [chunk None (Some "X") 1; chunk None (Some "Y") 5] None)
           0%nat (Texts [""; "X"]));
    [lia | reflexivity].
Defined.

Lemma stream_yields_one_frame_per_chunk_witness :
  exists undecoded ex,
    [chunk None (Some "X") 1; chunk None (Some "Y") 5; chunk None (Some "Z") 0]
      !! length (frames (iterate (stream_body (Ok 2))
                           (streamed_response
                              [chunk None (Some "X") 1; chunk None (Some "Y") 5;
                               chunk None (Some "Z") 0] None)))
    = Some undecoded
    /\ stream_body (Ok 2) undecoded = Raise ex
    /\ ending (iterate (stream_body (Ok 2))
                 (streamed_response
                    [chunk None (Some "X") 1; chunk None (Some "Y") 5;
                     chunk None (Some "Z") 0] None))
       = Some ex.
Proof.
  apply (proj2 (proj2 (stream_yields_one_frame_per_chunk 2
                         (streamed_response
                            [chunk None (Some "X") 1; chunk None (Some "Y") 5;
                             chunk None (Some "Z") 0] None)
                         [chunk None (Some "X") 1; chunk None (Some "Y") 5;
                          chunk None (Some "Z") 0] None eq_refl))).
  simpl. lia.
Defined.

(** The three frames of the specification's example. *)
Lemma loop_yields_fragments_for_single_response_witness :
  iterate (stream_body (Ok 1))
    (streamed_response [chunk (Some "assistant") None 0; chunk None (Some "Hi") 0;
                        chunk None (Some " there") 0] None)
  = {| frames := [Text "assistant: "; Text "Hi"; Text " there"]; ending := None |}.
Proof.
  apply (proj1 (loop_yields_fragments_for_single_response 1
                  (streamed_response [chunk (Some "assistant") None 0;
                                      chunk None (Some "Hi") 0;
                                      chunk None (Some " there") 0] None)
                  [chunk (Some "assistant") None 0; chunk None (Some "Hi") 0;
                   chunk None (Some " there") 0] None
                  [{| delta := {| delta_role := Some "assistant"; delta_content := None |};
                      index := 0 |};
                   {| delta := {| delta_role := None; delta_content := Some "Hi" |};
                      index := 0 |};
                   {| delta := {| delta_role := None; delta_content := Some " there" |};
                      index := 0 |}]
                  ltac:(lia) eq_refl eq_refl)).
Defined.

(** The two frames of the specification's example, then a chunk that
    reports index 2 of 2. *)
Lemma loop_stops_at_out_of_range_index_witness :
  iterate (stream_body (Ok 2))
    (streamed_response [chunk None (Some "X") 1; chunk None (Some "Y") 0;
                        chunk None (Some "Z") 2; chunk None (Some "W") 0] None)
  = {| frames := [Texts [""; "X"]; Texts ["Y"; ""]];
       ending := Some (IndexError "list assignment index out of range") |}.
Proof.
  apply (proj1 (loop_stops_at_out_of_range_index 2
                  (streamed_response [chunk None (Some "X") 1; chunk None (Some "Y") 0;
                                      chunk None (Some "Z") 2; chunk None (Some "W") 0]
                                     None)
                  [chunk None (Some "X") 1; chunk None (Some "Y") 0]
                  [chunk None (Some "W") 0]
                  (chunk None (Some "Z") 2) None
                  [{| delta := {| delta_role := None; delta_content := Some "X" |};
                      index := 1 |};
                   {| delta := {| delta_role := None; delta_content := Some "Y" |};
                      index := 0 |}]
                  {| delta := {| delta_role := None; delta_content := Some "Z" |};
                     index := 2 |}
                  ltac:(lia) eq_refl eq_refl
                  ltac:(repeat constructor; simpl; lia) eq_refl ltac:(simpl; lia))).
Defined.

Lemma streams_never_yield_a_frame_witness :
  complete_chat_stream_async
    (answers (streamed [chunk None (Some "Hi") 0] None))
    open_ai conversation (Some (chat_settings 1)) world0
  = ({| frames := [];
        ending := Some (TypeError
                          "argument of type 'async_generator' is not iterable") |},
     called (build_payload open_ai conversation (chat_settings 1) true) world0).
Proof.
  apply (proj2 (proj2 (streams_never_yield_a_frame
                         (answers (streamed [chunk None (Some "Hi") 0] None))
                         open_ai world0))
           conversation (chat_settings 1) ("user", "Hello")
           (streamed_response [chunk None (Some "Hi") 0] None)
           [chunk None (Some "Hi") 0] None);
    [simpl; lia | reflexivity | reflexivity | reflexivity | reflexivity].
Defined.

Lemma only_first_choice_is_decoded_witness :
  iterate (stream_body (Ok 1))
    (streamed_response
       [{| chunk_choices :=
             [{| delta := {| delta_role := None; delta_content := Some "Hi" |};
                 index := 0 |};
              {| delta := {| delta_role := None; delta_content := Some "Bye" |};
                 index := 1 |}] |}] None)
  = iterate (stream_body (Ok 1)) (streamed_response [chunk None (Some "Hi") 0] None).
Proof.
  apply (only_first_choice_is_decoded (Ok 1) _ _
           [{| chunk_choices :=
                 [{| delta := {| delta_role := None; delta_content := Some "Hi" |};
                     index := 0 |};
                  {| delta := {| delta_role := None; delta_content := Some "Bye" |};
                     index := 1 |}] |}]
           [chunk None (Some "Hi") 0] None);
    reflexivity.
Defined.

Lemma from_dict_needs_three_keys_witness :
  (Azure.from_dict (delete "endpoint" legacy_config)).1 = Raise (KeyError "endpoint").
Proof.
  apply (proj1 (proj2 (proj2 (from_dict_needs_three_keys
                                (delete "endpoint" legacy_config)))));
    [eexists; vm_compute; reflexivity | vm_compute; reflexivity].
Defined.

(** A configuration whose ["log"] entry is the empty string: the object's
    log is [None]. *)
Lemma from_dict_stores_entries_witness :
  <["log" := Azure.PyStr ""]> legacy_config !! "deployment_name"
  = Some (Azure.PyStr "chat-deployment")
  /\ Azure.log (Azure.BaseAzureConfig__init__ (Azure.PyStr "chat-deployment")
                  (Azure.PyStr "https://example.openai.azure.com")
                  (Azure.PyStr "key-0") None None (Azure.PyBool true))
     = match <["log" := Azure.PyStr ""]> legacy_config !! "log" with
       | Some v => if Azure.truthy v then Some v else None
       | None => None
       end.
Proof.
  destruct (from_dict_stores_entries (<["log" := Azure.PyStr ""]> legacy_config)
              (Azure.BaseAzureConfig__init__ (Azure.PyStr "chat-deployment")
                 (Azure.PyStr "https://example.openai.azure.com")
                 (Azure.PyStr "key-0") None None (Azure.PyBool true)))
    as (Hname & _ & _ & _ & Hlog & _).
  { vm_compute. reflexivity. }
  split; [exact Hname | exact Hlog].
Defined.

End FurtherInstances.
